(** * INVsystem: the weekday date sequence generator of [invoiceDating.py]

    A shallow embedding of [src/invoiceDating.py] and the properties of its
    date-sampling routine, its expiration-date derivation and the page cap of
    [apply_invoice_and_expiration_dates]. *)

From Stdlib Require Import String Ascii.
From Stdlib Require Import ZArith List Bool Lia Arith QArith Qminmax.
From Stdlib Require Import Sorting.Sorted Sorting.Permutation.
From Equations Require Import Equations.
Import ListNotations.

Local Open Scope Z_scope.

(** ** Exceptions and results *)

(** The [ValueError]s of the module, told apart by their message, and the two
    a library call can raise ([random.sample], [random.choices]). *)
Inductive value_error : Type :=
  | NoWeekdaysAvailable      (* "No weekdays available in the provided date range." *)
  | NoValidWeekdays          (* "Date range does not contain any valid weekdays." *)
  | CannotAssign (count max_repeats m max_possible : Z)
                             (* "Cannot assign {count} pages with max ... Maximum possible is ..." *)
  | NoEligibleDates          (* "No eligible dates left to repeat (hit max repeats everywhere)." *)
  | NotWeekdays              (* "start_date and end_date must be weekdays (Mon-Fri)." *)
  | EndBeforeStart           (* "end_date must be the same or after start_date." *)
  | InvalidPageStride        (* "Invalid page stride: ..." *)
  | EmptyCellReference       (* "Cell reference cannot be empty." *)
  | InvalidCellReference     (* "Invalid cell reference: ..." *)
  | InvalidRow               (* "Invalid row in cell reference: ..." *)
  | SampleLargerThanPopulation (* random.sample *)
  | WeightsMismatch.         (* random.choices *)

Inductive exn : Type :=
  | ValueError (msg : value_error)
  | OverflowError
  | IndexError
  | FileNotFoundError.

Inductive result (A : Type) : Type :=
  | Ok (a : A)
  | Raise (e : exn).
Arguments Ok {A} a.
Arguments Raise {A} e.

Definition bind_result {A B} (r : result A) (k : A -> result B) : result B :=
  match r with
  | Ok a => k a
  | Raise e => Raise e
  end.

Declare Scope result_scope.
Delimit Scope result_scope with result.
Notation "x <- r ;; k" := (bind_result r (fun x => k))
  (at level 61, r at next level, right associativity) : result_scope.
Local Open Scope result_scope.

(** ** Dates

    A [datetime.date] is modelled by its proleptic Gregorian ordinal
    ([date.toordinal()]): 0001-01-01 is day 1 and 9999-12-31 is day 3652059.
    Comparison of dates is comparison of ordinals. *)
Definition date := Z.

Definition MINORD : Z := 1.
Definition MAXORD : Z := 3652059.

Definition is_date (d : date) : Prop := MINORD <= d <= MAXORD.

(** [date.weekday()]: Monday is 0 and Sunday is 6. *)
Definition weekday (d : date) : Z := (d + 6) mod 7.

(** [timedelta(days=n)]: the constructor refuses more than 999999999 days. *)
Definition timedelta (days : Z) : result Z :=
  if (-999999999 <=? days) && (days <=? 999999999) then Ok days
  else Raise OverflowError.

(** [d + delta]: a result outside [date.min .. date.max] is an OverflowError. *)
Definition date_add (d : date) (delta : Z) : result date :=
  let o := d + delta in
  if (MINORD <=? o) && (o <=? MAXORD) then Ok o else Raise OverflowError.

(** The calendar, to write dates as year, month and day in examples
    (the standard library's [_ymd2ord]). *)
Definition is_leap (y : Z) : bool :=
  (y mod 4 =? 0) && (negb (y mod 100 =? 0) || (y mod 400 =? 0)).

Definition days_before_year (y : Z) : Z :=
  let y' := y - 1 in y' * 365 + y' / 4 - y' / 100 + y' / 400.

Definition days_in_month (y m : Z) : Z :=
  if m =? 2 then (if is_leap y then 29 else 28)
  else if (m =? 4) || (m =? 6) || (m =? 9) || (m =? 11) then 30 else 31.

Definition days_before_month (y m : Z) : Z :=
  fold_left (fun acc k => acc + days_in_month y (Z.of_nat k)) (seq 1 (Z.to_nat m - 1)) 0.

Definition ymd (y m d : Z) : date := days_before_year y + days_before_month y m + d.

(** ** [_weekdays_in_range] *)

(** A value together with the equation that it is the value of [a]; the
    loops below keep it to know what [date_add] returned. *)
Definition inspect {A} (a : A) : {b : A | a = b} := exist _ a eq_refl.

Equations? weekdays_loop (cur end_ : date) (out : list date) : result (list date)
  by wf (Z.to_nat (end_ + 1 - cur)) lt :=
  weekdays_loop cur end_ out with Z_le_dec cur end_ := {
    | right _ => Ok out
    | left _ with inspect (date_add cur 1) := {
        (* cur += timedelta(days=1) *)
        | exist _ (Raise e) _ => Raise e
        | exist _ (Ok next) Hnext =>
            weekdays_loop next end_
              (if weekday cur <? 5 then out ++ [cur] else out) } }.
Proof.
  unfold date_add in Hnext.
  destruct ((MINORD <=? cur + 1) && (cur + 1 <=? MAXORD)); [|discriminate].
  injection Hnext as <-. lia.
Qed.

Definition _weekdays_in_range (start end_ : date) : result (list date) :=
  weekdays_loop start end_ [].

(** ** [_add_days_adjust_weekday] *)

(** Days left until the Monday that follows: the variant of the loop below. *)
Definition days_to_monday (d : date) : nat := Z.to_nat ((7 - weekday d) mod 7).
Arguments days_to_monday d : simpl never.

Equations? _adjust_forward_to_weekday (d : date) : result date
  by wf (days_to_monday d) lt :=
  _adjust_forward_to_weekday d with Z_le_dec 5 (weekday d) := {
    | right _ => Ok d
    | left _ with inspect (date_add d 1) := {
        (* d += timedelta(days=1) *)
        | exist _ (Raise e) _ => Raise e
        | exist _ (Ok next) Hnext => _adjust_forward_to_weekday next } }.
Proof.
  unfold date_add in Hnext.
  destruct ((MINORD <=? d + 1) && (d + 1 <=? MAXORD)); [|discriminate].
  injection Hnext as <-.
  unfold days_to_monday, weekday in *.
  assert (Hr : 0 <= (d + 6) mod 7 < 7) by (apply Z.mod_pos_bound; lia).
  replace (d + 1 + 6) with ((d + 6) + 1) by lia.
  rewrite <- Zplus_mod_idemp_l.
  assert (H6 : (d + 6) mod 7 = 5 \/ (d + 6) mod 7 = 6) by lia.
  destruct H6 as [H6|H6]; rewrite H6; apply Nat.ltb_lt; reflexivity.
Qed.

Definition _add_days_adjust_weekday (d : date) (days : Z) : result date :=
  delta <- timedelta days ;;
  s <- date_add d delta ;;
  _adjust_forward_to_weekday s.

(** ** The random source

    [random] is the process-global generator; the embedding threads it as a
    state: an entropy tape read from position 0.  Every outcome the library
    can produce is the outcome of some tape, so a property proved for all
    tapes holds for every random draw. *)
Definition rng := nat -> nat.

(** The tape that starts with [l] and continues with zeros. *)
Definition tape_of (l : list nat) : rng := fun i => nth i l 0%nat.

(** State and exception monad over the random source. *)
Definition M (A : Type) : Type := rng -> result A * rng.

Definition ret {A} (a : A) : M A := fun g => (Ok a, g).
Definition raise {A} (e : exn) : M A := fun g => (Raise e, g).
Definition bind {A B} (m : M A) (k : A -> M B) : M B :=
  fun g => match m g with
           | (Ok a, g') => k a g'
           | (Raise e, g') => (Raise e, g')
           end.
Definition lift {A} (r : result A) : M A := fun g => (r, g).

Declare Scope M_scope.
Delimit Scope M_scope with M.
Notation "x <- m ;; k" := (bind m (fun x => k))
  (at level 61, m at next level, right associativity) : M_scope.

(** [random._randbelow(n)]: an integer in [range(n)], for [n > 0]. *)
Definition randbelow (n : nat) : M nat :=
  fun g => (Ok (g 0%nat mod n)%nat, fun i => g (S i)).

(** ** Lists as Python uses them *)

Definition len {A} (l : list A) : Z := Z.of_nat (length l).

(** [l[i]] for an index [i >= 0]: IndexError out of range. *)
Definition getitem {A} (l : list A) (i : nat) : result A :=
  match nth_error l i with
  | Some x => Ok x
  | None => Raise IndexError
  end.

(** [l[i] += 1] *)
Fixpoint incr_item (l : list Z) (i : nat) : result (list Z) :=
  match l, i with
  | [], _ => Raise IndexError
  | x :: t, O => Ok (x + 1 :: t)
  | x :: t, S i' => (t' <- incr_item t i' ;; Ok (x :: t'))%result
  end.

(** [[f(x) for x in l]] where [f] can raise. *)
Fixpoint map_result {A B} (f : A -> result B) (l : list A) : result (list B) :=
  match l with
  | [] => Ok []
  | x :: t => (y <- f x ;; ys <- map_result f t ;; Ok (y :: ys))%result
  end.

(** [l[i:j]] for [0 <= i] and [0 <= j]. *)
Definition slice {A} (l : list A) (i j : nat) : list A :=
  firstn (j - i) (skipn i l).

(** [enumerate(l)] *)
Definition enumerate {A} (l : list A) : list (nat * A) :=
  combine (seq 0 (length l)) l.

(** [sorted(l)] on integers. *)
Fixpoint insert_sorted (x : nat) (l : list nat) : list nat :=
  match l with
  | [] => [x]
  | y :: t => if (x <=? y)%nat then x :: y :: t else y :: insert_sorted x t
  end.

Definition sorted (l : list nat) : list nat := fold_right insert_sorted [] l.

(** [l] without its element at position [j]. *)
Definition remove_at {A} (j : nat) (l : list A) : list A :=
  firstn j l ++ skipn (S j) l.

(** ** [random.sample] and [random.choices]

    Modelled from the library's contract: [random.sample(population, k)]
    returns [k] elements taken at [k] different positions of the population,
    in selection order, and refuses [k] outside [0 .. len(population)]. *)
Fixpoint sample_loop (k : nat) (pool : list nat) : M (list nat) :=
  match k with
  | O => ret []
  | S k' =>
      (j <- randbelow (length pool) ;;
       rest <- sample_loop k' (remove_at j pool) ;;
       ret (nth j pool 0%nat :: rest))%M
  end.

Definition sample (population : list nat) (k : Z) : M (list nat) :=
  if (k <? 0) || (len population <? k)
  then raise (ValueError SampleLargerThanPopulation)
  else sample_loop (Z.to_nat k) population.

(** A weight is the double [pow(2.718281828, e)].  The C library's [pow] has
    no counterpart here: the embedding keeps the exponent [e], computed in
    exact rational arithmetic, and the weight stands for that power. *)
Record weight : Type := Pow { exponent : Q }.

(** [random.choices(population, weights=weights, k=1)[0]], from the library's
    contract: one member of the population; the weights give its
    distribution.  Every weight of this module is a positive power, so the
    total is positive and each member can be the one drawn.  The library
    refuses a weight list of another length, and indexes an empty one. *)
Definition choices1 (population : list nat) (weights : list weight) : M nat :=
  if negb (length weights =? length population)%nat
  then raise (ValueError WeightsMismatch)
  else match population with
       | [] => raise IndexError
       | _ => (j <- randbelow (length population) ;; ret (nth j population 0%nat))%M
       end.

(** ** [_bell_weights] *)

Definition Z2Q (z : Z) : Q := inject_Z z.

(** The weights [pow(2.718281828, -0.5 * x * x)] are positive, so the guard
    [min_w <= 0] of the source is not taken and the list is returned as
    built. *)
Definition _bell_weights (m : Z) : list weight :=
  if m <=? 1 then [Pow 0]
  else
    let mid := (Z2Q (m - 1) / 2)%Q in
    let sigma := Qmax 1 (Z2Q m / 4) in
    map (fun i : nat =>
           let x := ((Z2Q (Z.of_nat i) - mid) / sigma)%Q in
           Pow (- (1 # 2) * x * x)%Q)
        (seq 0 (Z.to_nat m)).

(** ** [_weighted_choice_index] *)

Definition eligible_indices (repeats : list Z) (max_repeats_per_date : Z) : list nat :=
  map fst (filter (fun ir : nat * Z => snd ir <? max_repeats_per_date) (enumerate repeats)).

Definition _weighted_choice_index
    (weights : list weight) (repeats : list Z) (max_repeats_per_date : Z) : M nat :=
  let eligible := eligible_indices repeats max_repeats_per_date in
  match eligible with
  | [] => raise (ValueError NoEligibleDates)
  | _ =>
      (eligible_weights <- lift (map_result (getitem weights) eligible) ;;
       choices1 eligible eligible_weights)%M
  end.

(** ** [_generate_random_weekday_dates] *)

(** The scan for the first index at or after [start_date] and the last one
    at or before [end_date]. *)
Fixpoint find_bounds (start_date end_date : date) (l : list (nat * date))
    (start_idx end_idx : option nat) : option nat * option nat :=
  match l with
  | [] => (start_idx, end_idx)
  | (i, d) :: t =>
      let start_idx' :=
        match start_idx with
        | None => if start_date <=? d then Some i else None
        | Some _ => start_idx
        end in
      let end_idx' := if d <=? end_date then Some i else end_idx in
      find_bounds start_date end_date t start_idx' end_idx'
  end.

(** The extras loop: [while extras > 0], one draw and one increment a turn. *)
Fixpoint allocate_extras (extras : nat) (weights : list weight)
    (repeats : list Z) (max_repeats_per_date : Z) : M (list Z) :=
  match extras with
  | O => ret repeats
  | S extras' =>
      (idx <- _weighted_choice_index weights repeats max_repeats_per_date ;;
       repeats' <- lift (incr_item repeats idx) ;;
       allocate_extras extras' weights repeats' max_repeats_per_date)%M
  end.

(** [out.extend([d] * r)] for each pair of [zip(dates, repeats)]. *)
Definition expand (dates : list date) (repeats : list Z) : list date :=
  flat_map (fun dr : date * Z => repeat (fst dr) (Z.to_nat (snd dr)))
           (combine dates repeats).

(** [allowed_weekdays[start_idx : end_idx + 1]], or the ValueError of an
    empty selection. *)
Definition select_dates (start_date end_date : date) (allowed_weekdays : list date)
  : result (list date) :=
  match find_bounds start_date end_date (enumerate allowed_weekdays) None None with
  | (Some start_idx, Some end_idx) =>
      if (end_idx <? start_idx)%nat then Raise (ValueError NoValidWeekdays)
      else Ok (slice allowed_weekdays start_idx (end_idx + 1))
  | _ => Raise (ValueError NoValidWeekdays)
  end.

Definition _generate_random_weekday_dates
    (count : Z) (start_date end_date : date) (allowed_weekdays : list date)
    (max_repeats_per_date : Z) : M (list date) :=
  if count <=? 0 then ret []
  else
    match allowed_weekdays with
    | [] => raise (ValueError NoWeekdaysAvailable)
    | _ =>
      (dates <- lift (select_dates start_date end_date allowed_weekdays) ;;
       let m := len dates in
       let max_possible := max_repeats_per_date * m in
       if max_possible <? count
       then raise (ValueError (CannotAssign count max_repeats_per_date m max_possible))
       else if count <=? m then
         chosen <- sample (seq 0 (Z.to_nat m)) count ;;
         lift (map_result (getitem dates) (sorted chosen))
       else
         let repeats := repeat 1 (Z.to_nat m) in
         let extras := count - m in
         let weights := _bell_weights m in
         repeats' <- allocate_extras (Z.to_nat extras) weights repeats max_repeats_per_date ;;
         let out := expand dates repeats' in
         ret (firstn (Z.to_nat count) out))%M
    end.

(** ** [_cell_to_col_row]

    Cell references are ASCII strings. *)
Definition is_space (c : ascii) : bool :=
  let n := nat_of_ascii c in
  ((9 <=? n) && (n <=? 13) || (28 <=? n) && (n <=? 32))%nat.

Definition upper_char (c : ascii) : ascii :=
  let n := nat_of_ascii c in
  if ((97 <=? n) && (n <=? 122))%nat then ascii_of_nat (n - 32) else c.

Fixpoint lstrip (l : list ascii) : list ascii :=
  match l with
  | c :: t => if is_space c then lstrip t else l
  | [] => []
  end.

Definition strip (l : list ascii) : list ascii := rev (lstrip (rev (lstrip l))).

Definition is_letter (c : ascii) : bool :=
  let n := nat_of_ascii c in ((65 <=? n) && (n <=? 90))%nat.

Definition is_digit (c : ascii) : bool :=
  let n := nat_of_ascii c in ((48 <=? n) && (n <=? 57))%nat.

(** The scan of the reference: letters, then digits. *)
Fixpoint split_cell (l letters digits : list ascii) : result (list ascii * list ascii) :=
  match l with
  | [] => Ok (letters, digits)
  | ch :: t =>
      if is_letter ch then
        match digits with
        | [] => split_cell t (letters ++ [ch]) digits
        | _ => Raise (ValueError InvalidCellReference)
        end
      else if is_digit ch then split_cell t letters (digits ++ [ch])
      else Raise (ValueError InvalidCellReference)
  end.

Definition _cell_to_col_row (cell : string) : result (Z * Z) :=
  let cell := map upper_char (strip (list_ascii_of_string cell)) in
  match cell with
  | [] => Raise (ValueError EmptyCellReference)
  | _ =>
      ld <- split_cell cell [] [] ;;
      let letters := fst ld in
      let digits := snd ld in
      match letters, digits with
      | [], _ | _, [] => Raise (ValueError InvalidCellReference)
      | _, _ =>
          let col := fold_left (fun col ch => col * 26 + (Z.of_nat (nat_of_ascii ch) - 65 + 1)) letters 0 in
          let row := fold_left (fun row ch => row * 10 + (Z.of_nat (nat_of_ascii ch) - 48)) digits 0 in
          if row <=? 0 then Raise (ValueError InvalidRow) else Ok (col, row)
      end
  end.

(** ** [apply_invoice_and_expiration_dates] *)

Record InvoiceDatesConfig : Type := {
  first_page_invoice_cell : string;
  second_page_invoice_cell : string;
  expiration_row_offset : Z;
  expiration_days : Z;
  max_step_days : Z;
  max_pages : Z
}.

(** [InvoiceDatesConfig()] *)
Definition default_config : InvoiceDatesConfig := {|
  first_page_invoice_cell := "K12";
  second_page_invoice_cell := "K61";
  expiration_row_offset := 1;
  expiration_days := 30;
  max_step_days := 11;
  max_pages := 50
|}.

(** What the function asks of the spreadsheet host, in order. *)
Inductive com_event : Type :=
  | DispatchEx
  | SetVisible (visible : bool)
  | SetDisplayAlerts (alerts : bool)
  | WorkbooksOpen (path : string)
  | Worksheets (sheet_index : Z)
  | SetNumberFormat (row col : Z) (format : string)
  | SetValue (row col : Z) (value : date)
  | Save
  | PrintApplied (pages : Z)
  | Close (save_changes : bool)
  | Quit.

(** The body of [for page_index, inv_date in enumerate(invoice_dates)]: the
    events of the pages written, and the exception that stopped the loop if
    one did. *)
Fixpoint write_pages (config : InvoiceDatesConfig) (invoice_col first_row page_row_step : Z)
    (pages : list (nat * date)) : result unit * list com_event :=
  match pages with
  | [] => (Ok tt, [])
  | (page_index, inv_date) :: rest =>
      let inv_row := first_row + Z.of_nat page_index * page_row_step in
      let exp_row := inv_row + expiration_row_offset config in
      match _add_days_adjust_weekday inv_date (expiration_days config) with
      | Raise e => (Raise e, [])
      | Ok exp_date =>
          let (r, log) := write_pages config invoice_col first_row page_row_step rest in
          (r, [SetNumberFormat inv_row invoice_col "dd/mm/yyyy";
               SetNumberFormat exp_row invoice_col "dd/mm/yyyy";
               SetValue inv_row invoice_col inv_date;
               SetValue exp_row invoice_col exp_date] ++ log)
      end
  end.

(** The outcome of a call: what it returns or raises, the random source it
    leaves, and the requests made to the spreadsheet host. *)
Record outcome : Type := {
  returned : result unit;
  rng_after : rng;
  com_log : list com_event
}.

Section Apply.

(** The file system: [os.path.abspath] and [os.path.exists]. *)
Variable abspath : string -> string.
Variable path_exists : string -> bool.

Definition apply_invoice_and_expiration_dates
    (file_path : string) (total_pages : Z) (start_date end_date : date)
    (config : InvoiceDatesConfig) (sheet_index : Z) (visible : bool)
    (g : rng) : outcome :=
  let fail e := {| returned := Raise e; rng_after := g; com_log := [] |} in
  if total_pages <=? 0 then {| returned := Ok tt; rng_after := g; com_log := [] |}
  else if (5 <=? weekday start_date) || (5 <=? weekday end_date)
  then fail (ValueError NotWeekdays)
  else if end_date <? start_date then fail (ValueError EndBeforeStart)
  else
    let pages_to_apply := Z.min total_pages (max_pages config) in
    let abs_path := abspath file_path in
    if negb (path_exists abs_path) then fail FileNotFoundError
    else
      match _cell_to_col_row (first_page_invoice_cell config) with
      | Raise e => fail e
      | Ok (invoice_col, first_row) =>
      match _cell_to_col_row (second_page_invoice_cell config) with
      | Raise e => fail e
      | Ok (_, second_row) =>
        let page_row_step := second_row - first_row in
        if page_row_step <=? 0 then fail (ValueError InvalidPageStride)
        else
          match _weekdays_in_range start_date end_date with
          | Raise e => fail e
          | Ok [] => fail (ValueError NoWeekdaysAvailable)
          | Ok allowed_weekdays =>
            match _generate_random_weekday_dates
                    pages_to_apply start_date end_date allowed_weekdays 3 g with
            | (Raise e, g') => {| returned := Raise e; rng_after := g'; com_log := [] |}
            | (Ok invoice_dates, g') =>
                let opened := [DispatchEx; SetVisible visible; SetDisplayAlerts false;
                               WorkbooksOpen abs_path; Worksheets sheet_index] in
                let finally := [Close true; Quit] in
                match write_pages config invoice_col first_row page_row_step
                                  (enumerate invoice_dates) with
                | (Ok _, written) =>
                    {| returned := Ok tt; rng_after := g';
                       com_log := opened ++ written ++ [Save; PrintApplied pages_to_apply]
                                  ++ finally |}
                | (Raise e, written) =>
                    {| returned := Raise e; rng_after := g';
                       com_log := opened ++ written ++ finally |}
                end
            end
          end
      end
      end.

End Apply.

(** The pages a log wrote: each page sets two values. *)
Definition is_set_value (e : com_event) : bool :=
  match e with SetValue _ _ _ => true | _ => false end.

Definition pages_written (log : list com_event) : Z :=
  len (filter is_set_value log) / 2.

(** ** Vocabulary of the properties *)

(** [sum(l)] *)
Definition sum_list (l : list Z) : Z := fold_right Z.add 0 l.

(** How often [d] occurs in [out]. *)
Definition occurrences (out : list date) (d : date) : Z :=
  Z.of_nat (count_occ Z.eq_dec out d).

(** The occurrences of each value are next to each other. *)
Definition contiguous_runs (out : list date) : Prop :=
  forall i j k x y z,
    (i < j < k)%nat ->
    nth_error out i = Some x -> nth_error out j = Some y -> nth_error out k = Some z ->
    x = z -> y = x.

(** What a successful call returns for [count] pages over [dates]. *)
Record generated (dates : list date) (count max_repeats_per_date : Z)
    (out : list date) : Prop := {
  gen_length : len out = count;
  gen_sorted : StronglySorted Z.le out;
  gen_from : forall d, In d out -> In d dates;
  gen_cap : forall d, occurrences out d <= max_repeats_per_date;
  gen_distinct : count <= len dates -> StronglySorted Z.lt out;
  gen_all : len dates <= count -> forall d, In d dates -> 1 <= occurrences out d
}.

(** The states of the extras loop: extras left, repeat counts, random
    source.  [extras_loop w cap st st'] when the loop, started in [st], is in
    [st'] at the head of some later turn. *)
Definition loop_state : Type := nat * list Z * rng.

Inductive extras_loop (weights : list weight) (cap : Z) : loop_state -> loop_state -> Prop :=
  | loop_here (st : loop_state) : extras_loop weights cap st st
  | loop_turn (extras : nat) (repeats : list Z) (g : rng)
              (idx : nat) (g' : rng) (repeats' : list Z) (st : loop_state) :
      _weighted_choice_index weights repeats cap g = (Ok idx, g') ->
      incr_item repeats idx = Ok repeats' ->
      extras_loop weights cap (extras, repeats', g') st ->
      extras_loop weights cap (S extras, repeats, g) st.

Definition loop_inv (weights : list weight) (cap : Z) (st : loop_state) : Prop :=
  match st with
  | (extras, repeats, _) =>
      length weights = length repeats /\
      Forall (fun r => 1 <= r <= cap) repeats /\
      sum_list repeats + Z.of_nat extras <= cap * len repeats
  end.

(** A date range as the caller hands it over, with its pool. *)
Record valid_range (start_date end_date : date) (pool : list date) : Prop := {
  range_start : weekday start_date < 5;
  range_end : weekday end_date < 5;
  range_order : start_date <= end_date;
  range_pool : _weekdays_in_range start_date end_date = Ok pool
}.

(** The valid inputs of the generator. *)
Record valid_input (count : Z) (start_date end_date : date) (pool : list date)
    (max_repeats_per_date : Z) : Prop := {
  valid_count : 1 <= count;
  valid_dates : valid_range start_date end_date pool;
  valid_cap : 1 <= max_repeats_per_date;
  valid_feasible : count <= max_repeats_per_date * len pool
}.

(** The week of Monday 2026-01-05. *)
Definition week_2026_01_05 : list date :=
  [ymd 2026 1 5; ymd 2026 1 6; ymd 2026 1 7; ymd 2026 1 8; ymd 2026 1 9].

(** ** Vocabulary of the further properties *)

(** The values a log sets, in order, each with its row and column. *)
Definition set_values (log : list com_event) : list (Z * Z * date) :=
  flat_map (fun ev => match ev with
                      | SetValue row col value => [(row, col, value)]
                      | _ => []
                      end) log.

(** The requests that open a session on the workbook, and those that end it. *)
Definition session_opening (abs_path : string) (sheet_index : Z) (visible : bool)
  : list com_event :=
  [DispatchEx; SetVisible visible; SetDisplayAlerts false;
   WorkbooksOpen abs_path; Worksheets sheet_index].

Definition session_closing : list com_event := [Close true; Quit].

(** The two cells of a page: the invoice date and, [offset] rows below, the
    expiration date. *)
Definition page_cells (col first_row step offset : Z) (page : nat * date * date)
  : list (Z * Z * date) :=
  let '(page_index, inv_date, exp_date) := page in
  let inv_row := first_row + Z.of_nat page_index * step in
  [(inv_row, col, inv_date); (inv_row + offset, col, exp_date)].

(** The column a run of capital letters names, and the row a run of digits
    names: the two folds of [_cell_to_col_row]. *)
Definition column_number (letters : list ascii) : Z :=
  fold_left (fun col ch => col * 26 + (Z.of_nat (nat_of_ascii ch) - 65 + 1)) letters 0.

Definition row_number (digits : list ascii) : Z :=
  fold_left (fun row ch => row * 10 + (Z.of_nat (nat_of_ascii ch) - 48)) digits 0.

(** [cell.strip().upper()] *)
Definition normalized (cell : string) : list ascii :=
  map upper_char (strip (list_ascii_of_string cell)).

(** * The numbering modules

    [invoiceNumbering.py] and [controlNumbering.py] carry their own copies of
    [_cell_to_col_row], the same text as the one of [invoiceDating.py]. *)

(** The ValueErrors of the two modules and of [invoicing.py], by message, and
    what a call of the modules embedded from here on can raise: those, an
    exception of the functions embedded above, the ZeroDivisionError of [//]
    and [%], the EOFError of [input], or the ValueError of [int]. *)
Inductive numbering_error : Type :=
  | StartNotPositive       (* "start_number must be a positive integer." *)
  | StartNegative          (* "start_number must be >= 0." *)
  | StartTooLarge          (* "start_number must fit in 6 digits (0..999999)." *)
  | InvalidJumpRange       (* "Invalid jump range. Ensure 1 <= min_jump <= max_jump." *)
  | ControlExceeded (page current : Z)
                           (* "Control number exceeded 6 digits on page {page}. Current=..." *)
  | EmptyRandRange.        (* random.randint on an empty range *)

Inductive product_error : Type :=
  | ProductsEmpty          (* "products is empty. Provide at least one product." *)
  | InvalidStartRows.      (* "Invalid page stride: second_page_start_row (...) must be greater ..." *)

Inductive raised : Type :=
  | Inherited (e : exn)
  | NumberingError (msg : numbering_error)
  | ProductError (msg : product_error)
  | ZeroDivisionError
  | EOFError
  | InvalidLiteral.        (* the ValueError of int() *)

Inductive completion (A : Type) : Type :=
  | Returns (a : A)
  | Raises (e : raised).
Arguments Returns {A} a.
Arguments Raises {A} e.

(** The requests of the numbering functions to the spreadsheet host. *)
Inductive sheet_event : Type :=
  | StartExcel
  | Visible (visible : bool)
  | DisplayAlerts (alerts : bool)
  | OpenWorkbook (path : string)
  | SelectSheet (sheet_index : Z)
  | CellNumberFormat (row col : Z) (format : string)
  | CellValue (row col : Z) (value : Z)
  | CellFontColor (row col : Z) (color : Z)
  | SaveWorkbook
  | PrintInvoiceNumbers (first last pages : Z)
  | PrintControlNumbers (pages : Z)
  | CloseWorkbook (save_changes : bool)
  | QuitExcel.

Definition numbering_opening (abs_path : string) (sheet_index : Z) (visible : bool)
  : list sheet_event :=
  [StartExcel; Visible visible; DisplayAlerts false;
   OpenWorkbook abs_path; SelectSheet sheet_index].

Definition numbering_closing : list sheet_event := [CloseWorkbook true; QuitExcel].

(** The numbers a log puts in cells, in order, each with its row and column. *)
Definition cell_values (log : list sheet_event) : list (Z * Z * Z) :=
  flat_map (fun ev => match ev with
                      | CellValue row col value => [(row, col, value)]
                      | _ => []
                      end) log.

(** [range(n)] *)
Definition range (n : Z) : list Z := map Z.of_nat (seq 0 (Z.to_nat n)).

(** The anchors of the two first pages: column, first row and page stride,
    as the three callers of [_cell_to_col_row] compute them. *)
Definition page_anchor (first_page_cell second_page_cell : string)
  : completion (Z * Z * Z) :=
  match _cell_to_col_row first_page_cell with
  | Raise e => Raises (Inherited e)
  | Ok (col, first_row) =>
      match _cell_to_col_row second_page_cell with
      | Raise e => Raises (Inherited e)
      | Ok (_, second_row) =>
          let page_row_step := second_row - first_row in
          if page_row_step <=? 0 then Raises (Inherited (ValueError InvalidPageStride))
          else Returns (col, first_row, page_row_step)
      end
  end.

(** ** [apply_invoice_numbers] *)


Section InvoiceNumbers.

Variable abspath : string -> string.
Variable path_exists : string -> bool.


End InvoiceNumbers.

(** ** [apply_control_numbers] *)

(** [random.randint(a, b)]: [a + _randbelow(b - a + 1)], and a ValueError on
    an empty range. *)
Definition randint (a b : Z) (g : rng) : completion Z * rng :=
  if b <? a then (Raises (NumberingError EmptyRandRange), g)
  else match randbelow (Z.to_nat (b - a + 1)) g with
       | (Ok j, g') => (Returns (a + Z.of_nat j), g')
       | (Raise e, g') => (Raises (Inherited e), g')
       end.

(** The loop over the pages: the state is the number to write next and the
    random source. *)
Fixpoint control_pages (col first_row page_row_step min_jump max_jump : Z)
    (pages : list Z) (current : Z) (g : rng)
  : completion unit * rng * list sheet_event :=
  match pages with
  | [] => (Returns tt, g, [])
  | page_index :: rest =>
      let row := first_row + page_index * page_row_step in
      let cell := [CellNumberFormat row col "000000"; CellValue row col current;
                   CellFontColor row col 255] in
      match randint min_jump max_jump g with
      | (Raises e, g') => (Raises e, g', cell)
      | (Returns jump, g') =>
          let current' := current + jump in
          if 999999 <? current'
          then (Raises (NumberingError (ControlExceeded (page_index + 1) current')), g', cell)
          else
            let '(r, g'', log) :=
              control_pages col first_row page_row_step min_jump max_jump rest current' g' in
            (r, g'', cell ++ log)
      end
  end.

Record control_outcome : Type := {
  control_completed : completion unit;
  control_rng : rng;
  control_requests : list sheet_event
}.

Section ControlNumbers.

Variable abspath : string -> string.
Variable path_exists : string -> bool.

Definition apply_control_numbers
    (file_path : string) (start_number total_pages : Z)
    (first_page_cell second_page_cell : string) (sheet_index : Z) (visible : bool)
    (max_pages min_jump max_jump : Z) (g : rng) : control_outcome :=
  let fail e := {| control_completed := Raises e; control_rng := g;
                   control_requests := [] |} in
  if start_number <? 0 then fail (NumberingError StartNegative)
  else if negb ((0 <=? start_number) && (start_number <=? 999999))
  then fail (NumberingError StartTooLarge)
  else if total_pages <=? 0
  then {| control_completed := Returns tt; control_rng := g; control_requests := [] |}
  else if (min_jump <=? 0) || (max_jump <? min_jump)
  then fail (NumberingError InvalidJumpRange)
  else
    let pages_to_apply := Z.min total_pages max_pages in
    let abs_path := abspath file_path in
    if negb (path_exists abs_path) then fail (Inherited FileNotFoundError)
    else
      match page_anchor first_page_cell second_page_cell with
      | Raises e => fail e
      | Returns (col, first_row, page_row_step) =>
          let '(r, g', written) :=
            control_pages col first_row page_row_step min_jump max_jump
                          (range pages_to_apply) start_number g in
          {| control_completed := r;
             control_rng := g';
             control_requests :=
               numbering_opening abs_path sheet_index visible ++ written ++
               (match r with
                | Returns _ => [SaveWorkbook; PrintControlNumbers pages_to_apply]
                | Raises _ => []
                end) ++
               numbering_closing |}
      end.

End ControlNumbers.

(** * [invoicing.py] *)

Section Products.

(** The objects a product holds, with the two conversions the function
    uses: a [str] taken as an object, and [str(x)] as an f-string formats
    it. *)
Variable value : Type.
Variable text : string -> value.
Variable to_str : value -> string.





Variable abspath : string -> string.
Variable path_exists : string -> bool.



End Products.



(** * [prompts.py] *)

(** [raw.split("/")] on the characters of a string. *)
Fixpoint split_on (sep : ascii) (l : list ascii) : list (list ascii) :=
  match l with
  | [] => [[]]
  | c :: t =>
      if Ascii.eqb c sep then [] :: split_on sep t
      else match split_on sep t with
           | part :: parts => (c :: part) :: parts
           | [] => [[c]]
           end
  end.

(** [raw.isdigit()] on an ASCII string. *)
Definition isdigit (l : list ascii) : bool :=
  match l with
  | [] => false
  | _ => forallb is_digit l
  end.

(** The integers of a C [int]. *)
Definition in_c_int (n : Z) : bool := (-2147483648 <=? n) && (n <=? 2147483647).

(** [date(year=y, month=m, day=d)] of CPython's [datetime]: the three
    arguments are converted to C [int]s, which raises OverflowError for an
    integer outside their range; a year, month or day outside the calendar
    raises ValueError. *)
Inductive constructed : Type :=
  | Date (d : date)
  | DateValueError
  | DateOverflowError.

Definition make_date (y m d : Z) : constructed :=
  if negb (in_c_int y && in_c_int m && in_c_int d) then DateOverflowError
  else if (1 <=? y) && (y <=? 9999) && (1 <=? m) && (m <=? 12)
          && (1 <=? d) && (d <=? days_in_month y m)
  then Date (ymd y m d) else DateValueError.

(** What the prompts print. *)
Inductive console_message : Type :=
  | Asked (prompt : string)
  | PleasePositive         (* "Please enter a positive integer (e.g., 804)." *)
  | DigitsOnly             (* "Please enter digits only (e.g., 000968)." *)
  | ControlOutOfRange      (* "Control number must be between 000000 and 999999." *)
  | InvalidDateFormat      (* "Invalid date format. Please use DD/MM/YYYY ..." *)
  | WeekendDate            (* "That date is on a weekend. Please enter a weekday ..." *)
  | EndBeforeStartDate.    (* "End date must be the same or after the start date." *)

(** The outcome of a prompt: what it returns or raises, the lines of the
    standard input it has not read, and what it printed. *)
Record prompted (A : Type) : Type := {
  answer : completion A;
  unread : list string;
  printed : list console_message
}.
Arguments answer {A} p.
Arguments unread {A} p.
Arguments printed {A} p.

(** One more turn of a prompt loop, after [said] was printed. *)
Definition after {A} (said : list console_message) (p : prompted A) : prompted A :=
  {| answer := answer p; unread := unread p; printed := said ++ printed p |}.

Section Prompts.

(** [int(s)]: the integer a string denotes, [None] for its ValueError. *)
Variable py_int : list ascii -> option Z.

Definition input_stripped (line : string) : list ascii :=
  strip (list_ascii_of_string line).

(** The standard input is the list of the lines to come; [input] raises
    EOFError at its end. *)
Fixpoint _prompt_invoice_start (stdin : list string) : prompted Z :=
  let ask := Asked "Start invoice number (e.g., 804): " in
  match stdin with
  | [] => {| answer := Raises EOFError; unread := []; printed := [ask] |}
  | line :: rest =>
      let raw := input_stripped line in
      match py_int raw with
      | Some value =>
          if value <=? 0
          then after [ask; PleasePositive] (_prompt_invoice_start rest)
          else {| answer := Returns value; unread := rest; printed := [ask] |}
      | None => after [ask; PleasePositive] (_prompt_invoice_start rest)
      end
  end.


(** [except ValueError] catches the ValueError of [int] and of [date], not
    the OverflowError of [date]. *)
Definition _parse_ddmmyyyy (raw : list ascii) : completion (option date) :=
  match split_on "/" raw with
  | [p0; p1; p2] =>
      match py_int p0 with
      | None => Returns None
      | Some d =>
          match py_int p1 with
          | None => Returns None
          | Some m =>
              match py_int p2 with
              | None => Returns None
              | Some y =>
                  match make_date y m d with
                  | Date parsed => Returns (Some parsed)
                  | DateValueError => Returns None
                  | DateOverflowError => Raises (Inherited OverflowError)
                  end
              end
          end
      end
  | _ => Returns None
  end.

Fixpoint _prompt_weekday_date (prompt : string) (stdin : list string) : prompted date :=
  match stdin with
  | [] => {| answer := Raises EOFError; unread := []; printed := [Asked prompt] |}
  | line :: rest =>
      let raw := input_stripped line in
      match _parse_ddmmyyyy raw with
      | Raises e => {| answer := Raises e; unread := rest; printed := [Asked prompt] |}
      | Returns None =>
          after [Asked prompt; InvalidDateFormat] (_prompt_weekday_date prompt rest)
      | Returns (Some parsed) =>
          if 5 <=? weekday parsed
          then after [Asked prompt; WeekendDate] (_prompt_weekday_date prompt rest)
          else {| answer := Returns parsed; unread := rest; printed := [Asked prompt] |}
      end
  end.

(** [DateRange(start, end)] *)
Record DateRange : Type := { range_from : date; range_to : date }.

Equations? prompt_invoice_date_range (stdin : list string) : prompted DateRange
  by wf (length stdin) lt :=
  prompt_invoice_date_range stdin
    with inspect (_prompt_weekday_date "Start date (DD/MM/YYYY): " stdin) := {
    | exist _ (Build_prompted _ (Raises e) rest1 said1) _ =>
        {| answer := Raises e; unread := rest1; printed := said1 |}
    | exist _ (Build_prompted _ (Returns start) rest1 said1) H1
        with inspect (_prompt_weekday_date "End date (DD/MM/YYYY): " rest1) := {
        | exist _ (Build_prompted _ (Raises e) rest2 said2) _ =>
            {| answer := Raises e; unread := rest2; printed := said1 ++ said2 |}
        | exist _ (Build_prompted _ (Returns end_) rest2 said2) H2 =>
            if end_ <? start
            then after (said1 ++ said2 ++ [EndBeforeStartDate])
                       (prompt_invoice_date_range rest2)
            else {| answer := Returns {| range_from := start; range_to := end_ |};
                    unread := rest2; printed := said1 ++ said2 |} } }.
Proof.
  assert (Hshort : forall prompt l d rest said,
            _prompt_weekday_date prompt l
              = {| answer := Returns d; unread := rest; printed := said |} ->
            (length rest < length l)%nat).
  { clear. intros prompt l. induction l as [|line t IH]; intros d rest said H; simpl in H.
    - discriminate.
    - destruct (_parse_ddmmyyyy (input_stripped line)) as [[parsed|]|e].
      + destruct (5 <=? weekday parsed).
        * unfold after in H.
          destruct (_prompt_weekday_date prompt t) as [a u p] eqn:Ht. simpl in H.
          injection H as -> -> _. specialize (IH _ _ _ eq_refl). simpl. lia.
        * injection H as _ <- _. simpl. lia.
      + unfold after in H.
        destruct (_prompt_weekday_date prompt t) as [a u p] eqn:Ht. simpl in H.
        injection H as -> -> _. specialize (IH _ _ _ eq_refl). simpl. lia.
      + discriminate. }
  pose proof (Hshort _ _ _ _ _ H1). pose proof (Hshort _ _ _ _ _ H2). lia.
Qed.

End Prompts.

(** A reader of plain decimal numerals, for examples: [int] agrees with it
    on digit strings. *)
Definition decimal (l : list ascii) : option Z :=
  if isdigit l then Some (row_number l) else None.

(** * [main.py]: the number of pages *)

(** [(num_items + items_per_page - 1) // items_per_page]; [None] stands for
    the ZeroDivisionError of a zero [items_per_page]. *)
Definition _compute_total_pages (num_items items_per_page : Z) : option Z :=
  if items_per_page =? 0 then None
  else Some ((num_items + items_per_page - 1) / items_per_page).

Definition ITEMS_PER_PAGE : Z := 9.

(** The control numbers a log writes, in order. *)
Definition control_values (log : list sheet_event) : list Z := map snd (cell_values log).

(** The successive differences of a list of numbers lie within
    [min_jump .. max_jump]. *)
Fixpoint jumps_within (min_jump max_jump : Z) (l : list Z) : Prop :=
  match l with
  | a :: t =>
      match t with
      | b :: _ => min_jump <= b - a <= max_jump
      | [] => True
      end /\ jumps_within min_jump max_jump t
  | [] => True
  end.

(** * Properties *)

(** ** Weekdays and the calendar *)

Example monday_2026_01_05 : weekday (ymd 2026 1 5) = 0.
Proof. reflexivity. Qed.

Example date_max_is_9999_12_31 : ymd 9999 12 31 = MAXORD /\ ymd 1 1 1 = MINORD.
Proof. split; reflexivity. Qed.

Example weekdays_of_a_week :
  _weekdays_in_range (ymd 2026 1 5) (ymd 2026 1 11) = Ok week_2026_01_05.
Proof. vm_compute. reflexivity. Qed.

Example weekdays_of_an_inverted_range :
  _weekdays_in_range (ymd 2026 1 9) (ymd 2026 1 5) = Ok [].
Proof. vm_compute. reflexivity. Qed.

Example cell_K12 : _cell_to_col_row "K12" = Ok (11, 12).
Proof. reflexivity. Qed.

Example cell_lower_case_padded : _cell_to_col_row " aa61 " = Ok (27, 61).
Proof. reflexivity. Qed.

Example cell_digits_first : _cell_to_col_row "1A" = Raise (ValueError InvalidCellReference).
Proof. reflexivity. Qed.

(** The first example of the specification: three pages over the week of
    2026-01-05, for the draw that selects positions 0, 2 and 4. *)
Example three_pages_of_a_week :
  fst (_generate_random_weekday_dates 3 (ymd 2026 1 5) (ymd 2026 1 9) week_2026_01_05 3
         (tape_of [0; 1; 2]%nat))
  = Ok [ymd 2026 1 5; ymd 2026 1 7; ymd 2026 1 9].
Proof. vm_compute. reflexivity. Qed.

Lemma weekday_range (d : date) : 0 <= weekday d < 7.
Proof. unfold weekday. apply Z.mod_pos_bound. lia. Qed.

Lemma weekday_succ (d : date) :
  weekday (d + 1) = if weekday d =? 6 then 0 else weekday d + 1.
Proof.
  pose proof (weekday_range d) as Hr. unfold weekday in *.
  replace (d + 1 + 6) with ((d + 6) + 1) by lia.
  rewrite <- Zplus_mod_idemp_l.
  destruct (Z.eqb_spec ((d + 6) mod 7) 6) as [E|E].
  - rewrite E. reflexivity.
  - apply Z.mod_small. lia.
Qed.

Lemma weekday_MAXORD : weekday MAXORD = 4.
Proof. reflexivity. Qed.

(** What the loop of [_weekdays_in_range] appends to [out]. *)
Definition loop_appends (cur end_ : date) (l : list date) : Prop :=
  StronglySorted Z.lt l /\
  forall d, In d l <-> cur <= d <= end_ /\ weekday d < 5.

Lemma date_add_inv (d delta r : Z) :
  date_add d delta = Ok r -> r = d + delta /\ is_date r.
Proof.
  unfold date_add, is_date.
  destruct (Z.leb_spec MINORD (d + delta)); [|discriminate].
  destruct (Z.leb_spec (d + delta) MAXORD); [|discriminate].
  intros [= <-]. lia.
Qed.

Lemma date_add_in_range (d delta : Z) :
  is_date (d + delta) -> date_add d delta = Ok (d + delta).
Proof.
  unfold date_add, is_date. intros [Hlo Hhi].
  destruct (Z.leb_spec MINORD (d + delta)); [|lia].
  destruct (Z.leb_spec (d + delta) MAXORD); [|lia]. reflexivity.
Qed.

Lemma date_add_raises (d delta : Z) (e : exn) :
  date_add d delta = Raise e -> e = OverflowError /\ ~ is_date (d + delta).
Proof.
  unfold date_add, is_date.
  destruct (Z.leb_spec MINORD (d + delta)); simpl;
    [destruct (Z.leb_spec (d + delta) MAXORD); simpl|];
    intros [= <-]; split; try reflexivity; lia.
Qed.

(** In a case of [funelim] on one of the two loops: what the increment
    [date_add] of that turn returned. *)
Ltac forget_inspect :=
  repeat match goal with
         | H : @eq (sigma _) _ _ |- _ => clear H
         end.

Ltac increment_ok Hnext Hdate :=
  forget_inspect;
  apply date_add_inv in Hnext; destruct Hnext as [-> Hdate].

Ltac increment_raised :=
  forget_inspect;
  match goal with
  | He : date_add _ _ = Raise _ |- _ =>
      apply date_add_raises in He; destruct He as [-> He]
  end.

(** Whatever the loop returns is [out] followed by the weekdays from [cur]
    to [end_], ascending. *)
Lemma weekdays_loop_inv (cur end_ : date) (out res : list date) :
  weekdays_loop cur end_ out = Ok res ->
  exists l, res = out ++ l /\ loop_appends cur end_ l.
Proof.
  funelim (weekdays_loop cur end_ out); intros Hres.
  - injection Hres as <-. exists []. rewrite app_nil_r. split; [reflexivity|]. split.
    + constructor.
    + intros d. simpl. split; [tauto | lia].
  - increment_ok Hnext Hn.
    destruct (H _ Hres) as (l' & -> & Hs & Hin).
    destruct (Z.ltb_spec (weekday cur) 5) as [Hw|Hw].
    + exists (cur :: l'). rewrite <- app_assoc. split; [reflexivity|]. split.
      * constructor; [exact Hs|]. apply Forall_forall. intros d Hd.
        apply Hin in Hd. lia.
      * intros d. simpl. rewrite Hin. split.
        -- intros [<-|Hd]; lia.
        -- intros [Hd Hwd]. destruct (Z.eq_dec cur d); [left; assumption | right; lia].
    + exists l'. split; [reflexivity|]. split; [exact Hs|].
      intros d. rewrite Hin. split.
      * intros Hd; lia.
      * intros [Hd Hwd]. assert (d <> cur) by (intros ->; lia). lia.
  - discriminate.
Qed.

(** The loop returns for every range of dates that ends before [date.max]. *)
Lemma weekdays_loop_total (cur end_ : date) (out : list date) :
  MINORD <= cur -> end_ < MAXORD ->
  exists res, weekdays_loop cur end_ out = Ok res.
Proof.
  funelim (weekdays_loop cur end_ out); intros Hlo Hhi.
  - eexists. reflexivity.
  - increment_ok Hnext Hn. apply H; lia.
  - exfalso. increment_raised.
    match goal with He : ~ is_date _ |- _ => apply He end.
    unfold is_date. lia.
Qed.

(** A range that ends on [date.max] overflows at the last increment. *)
Lemma weekdays_loop_overflow (cur end_ : date) (out : list date) :
  cur <= end_ -> MAXORD <= end_ ->
  weekdays_loop cur end_ out = Raise OverflowError.
Proof.
  funelim (weekdays_loop cur end_ out); intros Hle Hmax.
  - lia.
  - increment_ok Hnext Hn. destruct Hn as [_ Hn]. apply H; lia.
  - increment_raised. reflexivity.
Qed.

Lemma weekdays_in_range_ok (start end_ : date) :
  MINORD <= start -> end_ < MAXORD ->
  exists pool, _weekdays_in_range start end_ = Ok pool /\ loop_appends start end_ pool.
Proof.
  intros Hlo Hhi. destruct (weekdays_loop_total start end_ [] Hlo Hhi) as (res & Hres).
  exists res. split; [exact Hres|].
  destruct (weekdays_loop_inv _ _ _ _ Hres) as (l & -> & Hl). exact Hl.
Qed.

Lemma weekdays_in_range_inv (start end_ : date) (pool : list date) :
  _weekdays_in_range start end_ = Ok pool -> loop_appends start end_ pool.
Proof.
  intros Hp. destruct (weekdays_loop_inv _ _ _ _ Hp) as (l & -> & Hl). exact Hl.
Qed.

(** ** The expiration date *)

Lemma adjust_forward_spec (s : date) :
  is_date s ->
  _adjust_forward_to_weekday s =
    Ok (if weekday s =? 5 then s + 2 else if weekday s =? 6 then s + 1 else s).
Proof.
  funelim (_adjust_forward_to_weekday s); intros Hs.
  - destruct (Z.eqb_spec (weekday d) 5); [lia|].
    destruct (Z.eqb_spec (weekday d) 6); [lia|]. reflexivity.
  - increment_ok Hnext Hn.
    rewrite (H Hn). f_equal.
    pose proof (weekday_range d) as Hr. pose proof (weekday_succ d) as Hs1.
    destruct (Z.eqb_spec (weekday d) 6) as [E6|E6].
    + rewrite Hs1. simpl. destruct (Z.eqb_spec (weekday d) 5); [lia | reflexivity].
    + assert (E5 : weekday d = 5) by lia. rewrite Hs1, E5. simpl. lia.
  - exfalso. increment_raised.
    match goal with He : ~ is_date _ |- _ => apply He end.
    pose proof weekday_MAXORD. unfold is_date in *.
    assert (d <> MAXORD) by (intros ->; lia). lia.
Qed.

(** ** [sorted] *)

Lemma insert_sorted_perm (x : nat) (l : list nat) :
  Permutation (insert_sorted x l) (x :: l).
Proof.
  induction l as [|y t IH]; simpl.
  - reflexivity.
  - destruct (x <=? y)%nat; [reflexivity|].
    rewrite IH. apply perm_swap.
Qed.

Lemma insert_sorted_sorted (x : nat) (l : list nat) :
  StronglySorted le l -> StronglySorted le (insert_sorted x l).
Proof.
  induction 1 as [|y t Ht IH Hy]; simpl.
  - repeat constructor.
  - destruct (Nat.leb_spec x y) as [Hxy|Hxy].
    + constructor; [constructor; assumption|].
      constructor; [assumption|].
      eapply Forall_impl; [|exact Hy]. intros; lia.
    + constructor; [assumption|].
      eapply Permutation_Forall; [symmetry; apply insert_sorted_perm|].
      constructor; [lia | assumption].
Qed.

Lemma sorted_perm (l : list nat) : Permutation (sorted l) l.
Proof.
  induction l as [|x t IH]; simpl; [reflexivity|].
  rewrite insert_sorted_perm. constructor. exact IH.
Qed.

Lemma sorted_sorted (l : list nat) : StronglySorted le (sorted l).
Proof.
  induction l as [|x t IH]; simpl; [constructor|].
  apply insert_sorted_sorted, IH.
Qed.

Lemma sorted_nodup_strict (l : list nat) :
  StronglySorted le l -> NoDup l -> StronglySorted lt l.
Proof.
  induction 1 as [|x t Ht IH Hx]; intros Hnd; [constructor|].
  inversion Hnd as [|? ? Hnin Hnd']; subst.
  constructor; [auto|].
  rewrite Forall_forall in *. intros y Hy.
  specialize (Hx y Hy). assert (x <> y) by (intros ->; contradiction). lia.
Qed.

Lemma sorted_strict (l : list nat) : NoDup l -> StronglySorted lt (sorted l).
Proof.
  intros Hnd. apply sorted_nodup_strict; [apply sorted_sorted|].
  eapply Permutation_NoDup; [symmetry; apply sorted_perm | exact Hnd].
Qed.

(** ** [random.sample] *)

Lemma remove_at_perm {A} (d : A) (j : nat) (l : list A) :
  (j < length l)%nat -> Permutation l (nth j l d :: remove_at j l).
Proof.
  revert l. induction j as [|j IH]; intros [|x t] Hj; simpl in *; try lia.
  - reflexivity.
  - unfold remove_at in *. simpl.
    rewrite (IH t) at 1 by lia. apply perm_swap.
Qed.

Lemma sample_loop_ok (k : nat) :
  forall (pool : list nat) (g : rng),
    (k <= length pool)%nat ->
    exists l rest g',
      sample_loop k pool g = (Ok l, g') /\ length l = k /\ Permutation pool (l ++ rest).
Proof.
  induction k as [|k IH]; intros pool g Hk; simpl.
  - exists [], pool, g. repeat split; reflexivity.
  - unfold bind, randbelow.
    set (j := (g 0%nat mod length pool)%nat).
    assert (Hj : (j < length pool)%nat) by (apply Nat.mod_upper_bound; lia).
    pose proof (remove_at_perm 0%nat j pool Hj) as Hperm.
    assert (Hlen : length (remove_at j pool) = (length pool - 1)%nat).
    { apply Permutation_length in Hperm. simpl in Hperm. lia. }
    destruct (IH (remove_at j pool) (fun i => g (S i)) ltac:(lia))
      as (l & rest & g' & Hrun & Hl & Hp).
    rewrite Hrun. exists (nth j pool 0%nat :: l), rest, g'.
    split; [reflexivity|]. split; [simpl; lia|].
    eapply perm_trans; [exact Hperm|]. simpl. constructor. exact Hp.
Qed.

Lemma sample_range_ok (m : nat) (count : Z) (g : rng) :
  0 <= count <= Z.of_nat m ->
  exists chosen g',
    sample (seq 0 m) count g = (Ok chosen, g') /\
    Z.of_nat (length chosen) = count /\ NoDup chosen /\
    Forall (fun i => (i < m)%nat) chosen.
Proof.
  intros Hc. unfold sample, len. rewrite length_seq.
  destruct (Z.ltb_spec count 0); [lia|].
  destruct (Z.ltb_spec (Z.of_nat m) count); [lia|]. simpl.
  destruct (sample_loop_ok (Z.to_nat count) (seq 0 m) g) as (l & rest & g' & Hrun & Hl & Hp).
  { rewrite length_seq. lia. }
  exists l, g'. split; [exact Hrun|]. split; [lia|].
  assert (Hnd : NoDup (l ++ rest)).
  { eapply Permutation_NoDup; [exact Hp | apply seq_NoDup]. }
  split; [eapply NoDup_app_remove_r; exact Hnd|].
  apply Forall_forall. intros i Hi.
  assert (Hin : In i (seq 0 m)).
  { eapply Permutation_in; [symmetry; exact Hp | apply in_or_app; left; exact Hi]. }
  apply in_seq in Hin. lia.
Qed.

(** ** Indexing *)

Lemma getitem_nth {A} (d : A) (l : list A) (i : nat) :
  (i < length l)%nat -> getitem l i = Ok (nth i l d).
Proof.
  intros Hi. unfold getitem.
  rewrite (nth_error_nth' l d Hi). reflexivity.
Qed.

Lemma map_getitem_ok {A} (d : A) (l : list A) (idxs : list nat) :
  Forall (fun i => (i < length l)%nat) idxs ->
  map_result (getitem l) idxs = Ok (map (fun i => nth i l d) idxs).
Proof.
  induction 1 as [|i t Hi Ht IH]; simpl; [reflexivity|].
  rewrite (getitem_nth d) by assumption. simpl. rewrite IH. reflexivity.
Qed.

Lemma strictly_sorted_nth (l : list date) :
  StronglySorted Z.lt l ->
  forall i j, (i < j < length l)%nat -> nth i l 0 < nth j l 0.
Proof.
  induction 1 as [|x t Ht IH Hx]; intros i j Hij; simpl in *; [lia|].
  destruct j as [|j]; [lia|]. destruct i as [|i].
  - rewrite Forall_forall in Hx. apply Hx. apply nth_In. lia.
  - apply IH. lia.
Qed.

Lemma pick_strictly_sorted (dates : list date) (idxs : list nat) :
  StronglySorted Z.lt dates ->
  StronglySorted lt idxs ->
  Forall (fun i => (i < length dates)%nat) idxs ->
  StronglySorted Z.lt (map (fun i => nth i dates 0) idxs).
Proof.
  intros Hd. induction 1 as [|i t Ht IH Hi]; intros Hb; simpl; [constructor|].
  inversion Hb as [|? ? Hib Hb']; subst.
  constructor; [apply IH; assumption|].
  apply Forall_map. rewrite Forall_forall in *. intros j Hj.
  apply strictly_sorted_nth; [assumption|]. specialize (Hi j Hj). specialize (Hb' j Hj). lia.
Qed.

Lemma strictly_sorted_le (l : list Z) : StronglySorted Z.lt l -> StronglySorted Z.le l.
Proof.
  induction 1 as [|x t Ht IH Hx]; constructor; [assumption|].
  eapply Forall_impl; [|exact Hx]. intros; lia.
Qed.

Lemma strictly_sorted_NoDup (l : list Z) : StronglySorted Z.lt l -> NoDup l.
Proof.
  induction 1 as [|x t Ht IH Hx]; constructor; [|assumption].
  intros Hin. rewrite Forall_forall in Hx. specialize (Hx x Hin). lia.
Qed.

Lemma count_occ_NoDup_le (l : list Z) (d : Z) :
  NoDup l -> (count_occ Z.eq_dec l d <= 1)%nat.
Proof. intros Hnd. revert d. apply NoDup_count_occ. exact Hnd. Qed.

(** ** The slice of the pool *)

Lemma find_bounds_in_range (start_date end_date : date) (l : list date) :
  Forall (fun d => start_date <= d <= end_date) l ->
  forall (k : nat) (si ei : option nat),
    find_bounds start_date end_date (combine (seq k (length l)) l) si ei =
      (match si with
       | Some _ => si
       | None => match l with [] => None | _ => Some k end
       end,
       match l with [] => ei | _ => Some (k + length l - 1)%nat end).
Proof.
  induction 1 as [|d t Hd Ht IH]; intros k si ei; simpl.
  - destruct si; reflexivity.
  - destruct (Z.leb_spec start_date d); [|lia].
    destruct (Z.leb_spec d end_date); [|lia].
    rewrite IH. f_equal.
    + destruct si; reflexivity.
    + destruct t; simpl; f_equal; lia.
Qed.

Lemma select_dates_pool (start_date end_date : date) (pool : list date) :
  pool <> [] ->
  Forall (fun d => start_date <= d <= end_date) pool ->
  select_dates start_date end_date pool = Ok pool.
Proof.
  intros Hne Hall. unfold select_dates, enumerate.
  rewrite find_bounds_in_range by assumption.
  destruct pool as [|d t]; [contradiction|].
  destruct (Nat.ltb_spec (0 + length (d :: t) - 1) 0); [lia|].
  unfold slice. simpl skipn.
  replace (0 + length (d :: t) - 1 + 1 - 0)%nat with (length (d :: t)) by (simpl; lia).
  rewrite firstn_all. reflexivity.
Qed.

Lemma pool_in_range (start_date end_date : date) (pool : list date) :
  loop_appends start_date end_date pool ->
  Forall (fun d => start_date <= d <= end_date) pool.
Proof.
  intros [_ Hin]. apply Forall_forall. intros d Hd. apply Hin in Hd. tauto.
Qed.

Lemma pool_nonempty (start_date end_date : date) (pool : list date) :
  loop_appends start_date end_date pool ->
  weekday start_date < 5 -> start_date <= end_date -> pool <> [].
Proof.
  intros [_ Hin] Hw Hle ->.
  apply (Hin start_date). lia.
Qed.

(** ** The extras loop *)

Lemma in_enumerate_from {A} (l : list A) :
  forall (k i : nat) (x : A),
    In (i, x) (combine (seq k (length l)) l) <->
    (k <= i)%nat /\ nth_error l (i - k) = Some x.
Proof.
  induction l as [|y t IH]; intros k i x; simpl.
  - split; [tauto|]. intros [_ H]. destruct (i - k)%nat; discriminate.
  - rewrite IH. split.
    + intros [[= <- <-]|[Hk Hn]].
      * rewrite Nat.sub_diag. split; [lia | reflexivity].
      * split; [lia|]. replace (i - k)%nat with (S (i - S k)) by lia. exact Hn.
    + intros [Hk Hn]. destruct (Nat.eq_dec i k) as [->|Hne].
      * rewrite Nat.sub_diag in Hn. simpl in Hn. left. congruence.
      * right. split; [lia|].
        replace (i - k)%nat with (S (i - S k)) in Hn by lia. exact Hn.
Qed.

Lemma eligible_indices_spec (repeats : list Z) (cap : Z) (i : nat) :
  In i (eligible_indices repeats cap) <->
  exists r, nth_error repeats i = Some r /\ r < cap.
Proof.
  unfold eligible_indices, enumerate. rewrite in_map_iff. split.
  - intros ([j r] & <- & Hin). apply filter_In in Hin. destruct Hin as [Hin Hr].
    apply in_enumerate_from in Hin. rewrite Nat.sub_0_r in Hin.
    exists r. simpl in *. split; [tauto | lia].
  - intros (r & Hn & Hr). exists (i, r). split; [reflexivity|].
    apply filter_In. split.
    + apply in_enumerate_from. rewrite Nat.sub_0_r. split; [lia | exact Hn].
    + simpl. lia.
Qed.

Lemma bell_weights_length (m : Z) :
  1 <= m -> length (_bell_weights m) = Z.to_nat m.
Proof.
  intros Hm. unfold _bell_weights.
  destruct (Z.leb_spec m 1).
  - replace m with 1 by lia. reflexivity.
  - rewrite length_map, length_seq. reflexivity.
Qed.

Lemma map_result_length {A B} (f : A -> result B) (l : list A) (l' : list B) :
  map_result f l = Ok l' -> length l' = length l.
Proof.
  revert l'. induction l as [|x t IH]; simpl; intros l'.
  - intros [= <-]. reflexivity.
  - destruct (f x); simpl; [|discriminate].
    destruct (map_result f t); simpl; [|discriminate].
    intros [= <-]. simpl. f_equal. apply IH. reflexivity.
Qed.

Lemma weighted_choice_ok (weights : list weight) (repeats : list Z) (cap : Z) (g : rng) :
  length weights = length repeats ->
  eligible_indices repeats cap <> [] ->
  exists idx r g',
    _weighted_choice_index weights repeats cap g = (Ok idx, g') /\
    nth_error repeats idx = Some r /\ r < cap.
Proof.
  intros Hlen Hne. unfold _weighted_choice_index.
  pose proof (eligible_indices_spec repeats cap) as Hspec.
  destruct (eligible_indices repeats cap) as [|i0 rest] eqn:Hel; [contradiction|].
  assert (Hb : Forall (fun i => (i < length weights)%nat) (i0 :: rest)).
  { apply Forall_forall. intros i Hi. apply Hspec in Hi. destruct Hi as (r & Hn & _).
    rewrite Hlen. apply nth_error_Some. congruence. }
  unfold bind, lift. rewrite (map_getitem_ok (Pow 0) weights _ Hb).
  unfold choices1. rewrite length_map, Nat.eqb_refl. simpl negb. cbv iota.
  unfold bind, randbelow, ret.
  set (j := (g 0%nat mod length (i0 :: rest))%nat).
  assert (Hj : (j < length (i0 :: rest))%nat) by (apply Nat.mod_upper_bound; simpl; lia).
  assert (Hin : In (nth j (i0 :: rest) 0%nat) (i0 :: rest)) by (apply nth_In; exact Hj).
  apply Hspec in Hin. destruct Hin as (r & Hn & Hr).
  exists (nth j (i0 :: rest) 0%nat), r, (fun i => g (S i)).
  split; [reflexivity|]. split; assumption.
Qed.

Lemma incr_item_ok (lo hi : Z) (l : list Z) :
  forall (i : nat) (r : Z),
    nth_error l i = Some r -> r < hi ->
    Forall (fun x => lo <= x <= hi) l ->
    exists l',
      incr_item l i = Ok l' /\ length l' = length l /\
      sum_list l' = sum_list l + 1 /\ Forall (fun x => lo <= x <= hi) l'.
Proof.
  induction l as [|x t IH]; intros i r Hn Hr Hall.
  - destruct i; discriminate.
  - inversion Hall as [|? ? Hx Ht]; subst. destruct i as [|i]; simpl in *.
    + injection Hn as ->. exists (r + 1 :: t). repeat split; simpl; try lia.
      constructor; [lia | assumption].
    + destruct (IH i r Hn Hr Ht) as (t' & Ht' & Hlen & Hsum & Hall').
      rewrite Ht'. simpl. exists (x :: t'). repeat split; simpl; try lia.
      constructor; assumption.
Qed.

(** While the counts add up to less than [cap * m], one of them is below
    the cap. *)
Lemma below_cap_exists (cap : Z) (l : list Z) :
  sum_list l < cap * len l -> eligible_indices l cap <> [].
Proof.
  intros Hsum.
  assert (Hex : exists i r, nth_error l i = Some r /\ r < cap).
  { revert Hsum. unfold len. induction l as [|x t IH]; simpl sum_list; intros Hsum.
    - simpl in Hsum. lia.
    - destruct (Z.lt_ge_cases x cap) as [Hx|Hx].
      + exists 0%nat, x. split; [reflexivity | assumption].
      + destruct IH as (i & r & Hn & Hr).
        { simpl length in Hsum. rewrite Nat2Z.inj_succ in Hsum. lia. }
        exists (S i), r. split; assumption. }
  destruct Hex as (i & r & Hn & Hr).
  assert (Hin : In i (eligible_indices l cap)) by (apply eligible_indices_spec; eauto).
  intros E. rewrite E in Hin. exact Hin.
Qed.

Lemma allocate_extras_ok (weights : list weight) (cap : Z) (extras : nat) :
  forall (repeats : list Z) (g : rng),
    length weights = length repeats ->
    Forall (fun r => 1 <= r <= cap) repeats ->
    sum_list repeats + Z.of_nat extras <= cap * len repeats ->
    exists repeats' g',
      allocate_extras extras weights repeats cap g = (Ok repeats', g') /\
      length repeats' = length repeats /\
      Forall (fun r => 1 <= r <= cap) repeats' /\
      sum_list repeats' = sum_list repeats + Z.of_nat extras.
Proof.
  induction extras as [|extras IH]; intros repeats g Hw Hall Hsum.
  - exists repeats, g. simpl. repeat split; try assumption; lia.
  - simpl. unfold bind at 1.
    destruct (weighted_choice_ok weights repeats cap g Hw) as (idx & r & g1 & Hrun & Hn & Hr).
    { apply below_cap_exists. lia. }
    rewrite Hrun.
    destruct (incr_item_ok 1 cap repeats idx r Hn Hr Hall) as (rep1 & Hinc & Hlen1 & Hsum1 & Hall1).
    unfold bind, lift. rewrite Hinc.
    destruct (IH rep1 g1) as (rep2 & g2 & Hrun2 & Hlen2 & Hall2 & Hsum2).
    + congruence.
    + exact Hall1.
    + unfold len in *. rewrite Hlen1, Hsum1. lia.
    + exists rep2, g2. rewrite Hrun2. repeat split; try assumption; lia.
Qed.

(** ** [expand] *)

Lemma expand_cons (d : date) (ds : list date) (r : Z) (rs : list Z) :
  expand (d :: ds) (r :: rs) = repeat d (Z.to_nat r) ++ expand ds rs.
Proof. reflexivity. Qed.

Lemma expand_length (dates : list date) :
  forall repeats,
    length dates = length repeats ->
    Forall (fun r => 0 <= r) repeats ->
    len (expand dates repeats) = sum_list repeats.
Proof.
  unfold len.
  induction dates as [|d ds IH]; intros [|r rs] Hlen Hall; simpl in Hlen; try lia.
  - reflexivity.
  - inversion Hall; subst. rewrite expand_cons, length_app, repeat_length, Nat2Z.inj_add.
    rewrite IH by (assumption || lia). simpl. lia.
Qed.

Lemma expand_in (dates : list date) :
  forall repeats d, In d (expand dates repeats) -> In d dates.
Proof.
  induction dates as [|x ds IH]; intros [|r rs] d Hin; simpl in *; try contradiction.
  change (In d (expand (x :: ds) (r :: rs))) in Hin.
  rewrite expand_cons in Hin. apply in_app_or in Hin. destruct Hin as [Hin|Hin].
  - left. symmetry. eapply repeat_spec. exact Hin.
  - right. eapply IH. exact Hin.
Qed.

Lemma sorted_repeat_app (d : date) (n : nat) (rest : list date) :
  Forall (fun x => d <= x) rest -> StronglySorted Z.le rest ->
  StronglySorted Z.le (repeat d n ++ rest).
Proof.
  intros Hd Hs. induction n as [|n IH]; simpl; [assumption|].
  constructor; [assumption|].
  apply Forall_app. split; [|assumption].
  apply Forall_forall. intros x Hx. apply repeat_spec in Hx. lia.
Qed.

Lemma expand_sorted (dates : list date) :
  StronglySorted Z.lt dates ->
  forall repeats, StronglySorted Z.le (expand dates repeats).
Proof.
  induction 1 as [|d ds Hs IH Hd]; intros [|r rs]; try constructor.
  rewrite expand_cons. apply sorted_repeat_app; [|apply IH].
  apply Forall_forall. intros x Hx. apply expand_in in Hx.
  rewrite Forall_forall in Hd. specialize (Hd x Hx). lia.
Qed.

Lemma expand_count_notin (dates : list date) (repeats : list Z) (d : date) :
  ~ In d dates -> count_occ Z.eq_dec (expand dates repeats) d = 0%nat.
Proof.
  intros Hn. apply count_occ_not_In. intros Hin. apply Hn.
  eapply expand_in. exact Hin.
Qed.

Lemma expand_count (dates : list date) :
  NoDup dates ->
  forall repeats i d r,
    nth_error dates i = Some d -> nth_error repeats i = Some r ->
    count_occ Z.eq_dec (expand dates repeats) d = Z.to_nat r.
Proof.
  induction 1 as [|x ds Hx Hnd IH]; intros [|r0 rs] i d r Hd Hr;
    destruct i as [|i]; simpl in Hd, Hr; try discriminate.
  - injection Hd as ->. injection Hr as ->.
    rewrite expand_cons, count_occ_app, count_occ_repeat_eq by reflexivity.
    rewrite expand_count_notin by assumption. lia.
  - rewrite expand_cons, count_occ_app.
    assert (x <> d) by (intros ->; apply Hx; eapply nth_error_In; exact Hd).
    rewrite count_occ_repeat_neq by congruence.
    simpl. eapply IH; eassumption.
Qed.

Lemma sum_list_repeat (x : Z) (n : nat) : sum_list (repeat x n) = x * Z.of_nat n.
Proof. induction n as [|n IH]; simpl sum_list; [lia|]. rewrite IH. lia. Qed.

Lemma sorted_nth_error_le (l : list date) :
  StronglySorted Z.le l ->
  forall a b u v, (a < b)%nat ->
    nth_error l a = Some u -> nth_error l b = Some v -> u <= v.
Proof.
  induction 1 as [|h t Ht IH Hh]; intros a b u v Hab Hu Hv.
  - destruct a; discriminate.
  - destruct b as [|b]; [lia|]. destruct a as [|a]; simpl in *.
    + injection Hu as <-. rewrite Forall_forall in Hh. apply Hh.
      eapply nth_error_In. exact Hv.
    + eapply IH; [|eassumption|eassumption]. lia.
Qed.

Lemma sorted_contiguous (out : list date) :
  StronglySorted Z.le out -> contiguous_runs out.
Proof.
  intros Hs i j k x y z [Hij Hjk] Hx Hy Hz Hxz.
  pose proof (sorted_nth_error_le out Hs i j x y Hij Hx Hy).
  pose proof (sorted_nth_error_le out Hs j k y z Hjk Hy Hz).
  lia.
Qed.

(** ** The generator *)

Lemma feasible_positive (count cap : Z) (dates : list date) :
  1 <= count -> count <= cap * len dates -> 1 <= cap /\ 1 <= len dates.
Proof.
  unfold len. intros Hc Hf. pose proof (Nat2Z.is_nonneg (length dates)) as Hn.
  split.
  - destruct (Z.le_gt_cases cap 0) as [H0|H0]; [|lia].
    assert (cap * Z.of_nat (length dates) <= 0) by (apply Z.mul_nonpos_nonneg; lia). lia.
  - destruct (Z.eq_dec (Z.of_nat (length dates)) 0) as [E|E]; [|lia].
    rewrite E, Z.mul_0_r in Hf. lia.
Qed.

(** The branch taken when there are at least as many dates as pages. *)
Lemma generated_subset (dates : list date) (count cap : Z) (chosen : list nat) :
  StronglySorted Z.lt dates -> 1 <= cap ->
  Z.of_nat (length chosen) = count -> NoDup chosen ->
  Forall (fun i => (i < length dates)%nat) chosen ->
  generated dates count cap (map (fun i => nth i dates 0) (sorted chosen)).
Proof.
  intros Hs Hcap Hlen Hnd Hb.
  assert (Hb' : Forall (fun i => (i < length dates)%nat) (sorted chosen)).
  { eapply Permutation_Forall; [symmetry; apply sorted_perm | exact Hb]. }
  assert (Hstrict : StronglySorted Z.lt (map (fun i => nth i dates 0) (sorted chosen))).
  { apply pick_strictly_sorted; [assumption | apply sorted_strict; assumption | assumption]. }
  constructor.
  - unfold len. rewrite length_map, (Permutation_length (sorted_perm chosen)). exact Hlen.
  - apply strictly_sorted_le, Hstrict.
  - intros d Hd. apply in_map_iff in Hd. destruct Hd as (i & <- & Hi).
    apply nth_In. rewrite Forall_forall in Hb'. apply Hb'. exact Hi.
  - intros d. unfold occurrences.
    pose proof (count_occ_NoDup_le _ d (strictly_sorted_NoDup _ Hstrict)). lia.
  - intros _. exact Hstrict.
  - intros Hm d Hd. unfold occurrences.
    apply In_nth with (d := 0) in Hd. destruct Hd as (i & Hi & <-).
    assert (Hincl : incl (seq 0 (length dates)) chosen).
    { apply NoDup_length_incl; [assumption | |].
      - rewrite length_seq. unfold len in Hm. lia.
      - intros j Hj. apply in_seq. rewrite Forall_forall in Hb. specialize (Hb j Hj). lia. }
    assert (Hin : In i (sorted chosen)).
    { eapply Permutation_in; [symmetry; apply sorted_perm|].
      apply Hincl, in_seq. lia. }
    assert (In (nth i dates 0) (map (fun i => nth i dates 0) (sorted chosen)))
      by (apply in_map_iff; exists i; split; [reflexivity | exact Hin]).
    apply (count_occ_In Z.eq_dec) in H. lia.
Qed.

(** The branch taken when dates have to repeat. *)
Lemma generated_expand (dates : list date) (count cap : Z) (repeats : list Z) :
  StronglySorted Z.lt dates -> 1 <= cap ->
  length repeats = length dates ->
  Forall (fun r => 1 <= r <= cap) repeats ->
  sum_list repeats = count ->
  generated dates count cap (expand dates repeats).
Proof.
  intros Hs Hcap Hlen Hall Hsum.
  pose proof (strictly_sorted_NoDup _ Hs) as Hnd.
  assert (Hocc : forall d, In d dates ->
            exists r, 1 <= r <= cap /\ occurrences (expand dates repeats) d = r).
  { intros d Hd. apply In_nth_error in Hd. destruct Hd as (i & Hi).
    assert (Hir : (i < length repeats)%nat)
      by (rewrite Hlen; apply nth_error_Some; congruence).
    destruct (nth_error repeats i) as [r|] eqn:Hr;
      [|apply nth_error_None in Hr; lia].
    exists r. rewrite Forall_forall in Hall.
    pose proof (Hall r (nth_error_In _ _ Hr)) as Hrange.
    split; [exact Hrange|]. unfold occurrences.
    rewrite (expand_count dates Hnd repeats i d r Hi Hr). lia. }
  constructor.
  - rewrite expand_length; [exact Hsum | lia |].
    eapply Forall_impl; [|exact Hall]. intros a Ha; simpl in Ha; lia.
  - apply expand_sorted, Hs.
  - intros d. apply expand_in.
  - intros d. destruct (in_dec Z.eq_dec d dates) as [Hd|Hd].
    + destruct (Hocc d Hd) as (r & Hr & ->). lia.
    + unfold occurrences. rewrite expand_count_notin by assumption. lia.
  - intros Hm.
    assert (Z.of_nat (length repeats) <= sum_list repeats).
    { clear - Hall. induction Hall as [|r rs Hr _ IH]; simpl sum_list; simpl length; lia. }
    unfold len in Hm. assert (sum_list repeats = Z.of_nat (length repeats)) by lia.
    (* every count is 1, so the expansion is the list of dates itself *)
    assert (Hones : Forall (fun r => r = 1) repeats).
    { clear - Hall H0. induction Hall as [|r rs Hr Hrs IH]; [constructor|].
      simpl sum_list in H0. simpl length in H0.
      assert (Z.of_nat (length rs) <= sum_list rs).
      { clear - Hrs. induction Hrs as [|r rs Hr _ IH]; simpl sum_list; simpl length; lia. }
      constructor; [lia | apply IH; lia]. }
    assert (Heq : expand dates repeats = dates).
    { clear - Hlen Hones. revert repeats Hlen Hones.
      induction dates as [|d ds IH]; intros [|r rs] Hlen Hones; simpl in Hlen; try lia.
      - reflexivity.
      - inversion Hones; subst. rewrite expand_cons. simpl. f_equal. apply IH; [lia | assumption]. }
    rewrite Heq. exact Hs.
  - intros _ d Hd. destruct (Hocc d Hd) as (r & Hr & ->). lia.
Qed.

Lemma generate_nonpositive (count : Z) (start_date end_date : date)
    (allowed : list date) (cap : Z) (g : rng) :
  count <= 0 ->
  _generate_random_weekday_dates count start_date end_date allowed cap g = (Ok [], g).
Proof.
  intros Hc. unfold _generate_random_weekday_dates.
  destruct (Z.leb_spec count 0); [reflexivity | lia].
Qed.

Lemma generate_infeasible (count : Z) (start_date end_date : date)
    (allowed dates : list date) (cap : Z) (g : rng) :
  1 <= count -> allowed <> [] ->
  select_dates start_date end_date allowed = Ok dates ->
  cap * len dates < count ->
  _generate_random_weekday_dates count start_date end_date allowed cap g =
    (Raise (ValueError (CannotAssign count cap (len dates) (cap * len dates))), g).
Proof.
  intros Hc Hne Hsel Hinf. unfold _generate_random_weekday_dates.
  destruct (Z.leb_spec count 0); [lia|].
  destruct allowed as [|a rest]; [contradiction|].
  unfold bind, lift. rewrite Hsel.
  destruct (Z.ltb_spec (cap * len dates) count); [reflexivity | lia].
Qed.

Lemma generate_feasible (count : Z) (start_date end_date : date)
    (allowed dates : list date) (cap : Z) (g : rng) :
  1 <= count -> allowed <> [] ->
  select_dates start_date end_date allowed = Ok dates ->
  StronglySorted Z.lt dates ->
  count <= cap * len dates ->
  exists out g',
    _generate_random_weekday_dates count start_date end_date allowed cap g = (Ok out, g') /\
    generated dates count cap out.
Proof.
  intros Hc Hne Hsel Hs Hf.
  destruct (feasible_positive count cap dates Hc Hf) as [Hcap Hm].
  unfold _generate_random_weekday_dates.
  destruct (Z.leb_spec count 0); [lia|].
  destruct allowed as [|a rest]; [contradiction|].
  unfold bind at 1. unfold lift at 1. rewrite Hsel.
  destruct (Z.ltb_spec (cap * len dates) count); [lia|].
  assert (Hmn : Z.to_nat (len dates) = length dates) by (unfold len; lia).
  destruct (Z.leb_spec count (len dates)) as [Hle|Hgt].
  - (* an increasing subset *)
    destruct (sample_range_ok (Z.to_nat (len dates)) count g)
      as (chosen & g' & Hrun & Hlen & Hnd & Hb); [lia|].
    rewrite Hmn in Hb.
    unfold bind. rewrite Hrun. unfold lift. cbv beta iota.
    assert (Hb' : Forall (fun i => (i < length dates)%nat) (sorted chosen)).
    { eapply Permutation_Forall; [symmetry; apply sorted_perm | exact Hb]. }
    rewrite (map_getitem_ok (0 : date) dates _ Hb').
    eexists; eexists; split; [reflexivity|].
    apply generated_subset; assumption.
  - (* repeats *)
    destruct (allocate_extras_ok (_bell_weights (len dates)) cap
                (Z.to_nat (count - len dates)) (repeat 1 (Z.to_nat (len dates))) g)
      as (repeats & g' & Hrun & Hlen & Hall & Hsum).
    + rewrite bell_weights_length, repeat_length by lia. reflexivity.
    + apply Forall_forall. intros r Hr. apply repeat_spec in Hr. lia.
    + rewrite sum_list_repeat. unfold len at 3. rewrite repeat_length. lia.
    + unfold bind. rewrite Hrun. unfold ret. cbv beta iota zeta.
      rewrite sum_list_repeat in Hsum. rewrite repeat_length in Hlen.
      assert (Hgen : generated dates count cap (expand dates repeats)).
      { apply generated_expand; try assumption; lia. }
      rewrite firstn_all2.
      * eexists; eexists; split; [reflexivity | exact Hgen].
      * pose proof (gen_length _ _ _ _ Hgen) as Hl. unfold len in Hl. lia.
Qed.

(** With the pool of the range as [allowed_weekdays], the dates the
    generator works on are the pool itself. *)
Lemma select_dates_range (start_date end_date : date) (pool : list date) :
  _weekdays_in_range start_date end_date = Ok pool ->
  pool <> [] ->
  select_dates start_date end_date pool = Ok pool /\ StronglySorted Z.lt pool.
Proof.
  intros Hp Hne. pose proof (weekdays_in_range_inv _ _ _ Hp) as Hl.
  split; [|apply Hl].
  apply select_dates_pool; [assumption | eapply pool_in_range; eassumption].
Qed.

Lemma valid_range_pool (start_date end_date : date) (pool : list date) :
  valid_range start_date end_date pool ->
  pool <> [] /\ select_dates start_date end_date pool = Ok pool /\
  loop_appends start_date end_date pool.
Proof.
  intros [Hs He Ho Hp]. pose proof (weekdays_in_range_inv _ _ _ Hp) as Hl.
  assert (Hne : pool <> []) by (eapply pool_nonempty; eassumption).
  split; [exact Hne|]. split; [|exact Hl].
  apply select_dates_range; assumption.
Qed.

Lemma generate_valid (count : Z) (start_date end_date : date) (pool : list date)
    (cap : Z) (g : rng) :
  valid_input count start_date end_date pool cap ->
  exists out g',
    _generate_random_weekday_dates count start_date end_date pool cap g = (Ok out, g') /\
    generated pool count cap out.
Proof.
  intros [Hc Hr Hcap Hf].
  destruct (valid_range_pool _ _ _ Hr) as (Hne & Hsel & Hl).
  eapply generate_feasible; try eassumption. apply Hl.
Qed.

(** The week used in the examples is a valid range. *)
Lemma week_valid_range :
  valid_range (ymd 2026 1 5) (ymd 2026 1 9) week_2026_01_05.
Proof. constructor; vm_compute; first [reflexivity | discriminate]. Qed.

(** ** The extras loop, turn by turn *)

Lemma weighted_choice_inv (weights : list weight) (repeats : list Z) (cap : Z)
    (g g' : rng) (idx : nat) :
  length weights = length repeats ->
  _weighted_choice_index weights repeats cap g = (Ok idx, g') ->
  exists r, nth_error repeats idx = Some r /\ r < cap.
Proof.
  intros Hlen Hrun.
  destruct (eligible_indices repeats cap) as [|i0 rest] eqn:Hel.
  - unfold _weighted_choice_index in Hrun. rewrite Hel in Hrun. discriminate.
  - destruct (weighted_choice_ok weights repeats cap g Hlen) as (idx0 & r & g0 & Hrun0 & Hn & Hr).
    { rewrite Hel. discriminate. }
    rewrite Hrun in Hrun0. injection Hrun0 as -> ->. eauto.
Qed.

Lemma extras_loop_inv (weights : list weight) (cap : Z) (st st' : loop_state) :
  extras_loop weights cap st st' -> loop_inv weights cap st -> loop_inv weights cap st'.
Proof.
  induction 1 as [st|extras repeats g idx g' repeats' st Hrun Hinc Hloop IH]; [tauto|].
  intros (Hlen & Hall & Hsum). apply IH. unfold loop_inv.
  destruct (weighted_choice_inv _ _ _ _ _ _ Hlen Hrun) as (r & Hn & Hr).
  destruct (incr_item_ok 1 cap repeats idx r Hn Hr Hall) as (rep1 & Hinc1 & Hlen1 & Hsum1 & Hall1).
  rewrite Hinc in Hinc1. injection Hinc1 as <-.
  split; [congruence|]. split; [exact Hall1|].
  unfold len in *. rewrite Hlen1, Hsum1. lia.
Qed.

Lemma loop_inv_choice (weights : list weight) (cap : Z)
    (extras : nat) (repeats : list Z) (g : rng) :
  loop_inv weights cap (S extras, repeats, g) ->
  eligible_indices repeats cap <> [] /\
  exists idx r g',
    _weighted_choice_index weights repeats cap g = (Ok idx, g') /\
    nth_error repeats idx = Some r /\ r < cap.
Proof.
  intros (Hlen & Hall & Hsum).
  assert (Hne : eligible_indices repeats cap <> []) by (apply below_cap_exists; lia).
  split; [exact Hne|]. apply weighted_choice_ok; assumption.
Qed.

Lemma loop_inv_initial (count cap : Z) (pool : list date) :
  1 <= cap -> 1 <= len pool -> count <= cap * len pool ->
  forall g, loop_inv (_bell_weights (len pool)) cap
              (Z.to_nat (count - len pool), repeat 1 (Z.to_nat (len pool)), g).
Proof.
  intros Hcap Hm Hf g. unfold loop_inv.
  rewrite bell_weights_length, repeat_length by lia.
  split; [reflexivity|]. split.
  - apply Forall_forall. intros r Hr. apply repeat_spec in Hr. lia.
  - rewrite sum_list_repeat. unfold len in *. rewrite repeat_length, Nat2Z.id.
    assert (Z.of_nat (length pool) <= cap * Z.of_nat (length pool)) by nia. lia.
Qed.

(** [extras_loop] follows [allocate_extras]: a run that returns went
    through the turns of the relation, down to no extras left. *)
Lemma allocate_extras_loop (weights : list weight) (cap : Z) (extras : nat) :
  forall (repeats : list Z) (g : rng) (repeats' : list Z) (g' : rng),
    allocate_extras extras weights repeats cap g = (Ok repeats', g') ->
    extras_loop weights cap (extras, repeats, g) (O, repeats', g').
Proof.
  induction extras as [|extras IH]; intros repeats g repeats' g' Hrun; simpl in Hrun.
  - injection Hrun as <- <-. constructor.
  - unfold bind at 1 in Hrun.
    destruct (_weighted_choice_index weights repeats cap g) as [[idx|e] g1] eqn:Hc;
      [|discriminate].
    unfold bind, lift in Hrun.
    destruct (incr_item repeats idx) as [rep1|e] eqn:Hi; [|discriminate].
    eapply loop_turn; [exact Hc | exact Hi | apply IH; exact Hrun].
Qed.

(** * The claims *)

Ltac closed := vm_compute; first [reflexivity | discriminate | lia].

Ltac week_is_valid :=
  constructor; [closed | constructor; closed | closed | closed].

(** C1. For every valid input (count >= 1, a weekday range with end >= start,
    max_repeats_per_date >= 1, count <= max_repeats_per_date * |pool|) and
    every random draw, [_generate_random_weekday_dates] returns a list of
    exactly [count] dates. *)
Theorem generate_length (count : Z) (start_date end_date : date) (pool : list date)
    (cap : Z) (g : rng) :
  valid_input count start_date end_date pool cap ->
  exists out g',
    _generate_random_weekday_dates count start_date end_date pool cap g = (Ok out, g') /\
    len out = count.
Proof.
  intros Hv. destruct (generate_valid _ _ _ _ _ g Hv) as (out & g' & Hrun & Hgen).
  exists out, g'. split; [exact Hrun | apply Hgen].
Qed.

Lemma generate_length_witness :
  valid_input 3 (ymd 2026 1 5) (ymd 2026 1 9) week_2026_01_05 3 /\
  exists out g',
    _generate_random_weekday_dates 3 (ymd 2026 1 5) (ymd 2026 1 9) week_2026_01_05 3
      (tape_of [0; 1; 2]%nat) = (Ok out, g') /\
    len out = 3.
Proof.
  assert (Hv : valid_input 3 (ymd 2026 1 5) (ymd 2026 1 9) week_2026_01_05 3)
    by week_is_valid.
  split; [exact Hv | apply (generate_length _ _ _ _ _ _ Hv)].
Defined.

(** C2. For every valid input the output is non-decreasing, adjacent pair
    by adjacent pair, and the occurrences of any one date form a single
    contiguous run. *)
Theorem generate_nondecreasing (count : Z) (start_date end_date : date)
    (pool : list date) (cap : Z) (g : rng) :
  valid_input count start_date end_date pool cap ->
  exists out g',
    _generate_random_weekday_dates count start_date end_date pool cap g = (Ok out, g') /\
    (forall i x y, nth_error out i = Some x -> nth_error out (S i) = Some y -> x <= y) /\
    contiguous_runs out.
Proof.
  intros Hv. destruct (generate_valid _ _ _ _ _ g Hv) as (out & g' & Hrun & Hgen).
  exists out, g'. split; [exact Hrun|]. pose proof (gen_sorted _ _ _ _ Hgen) as Hs. split.
  - intros i x y Hx Hy. eapply (sorted_nth_error_le out Hs i (S i)); [lia | eassumption..].
  - apply sorted_contiguous, Hs.
Qed.

Lemma generate_nondecreasing_witness :
  valid_input 10 (ymd 2026 1 5) (ymd 2026 1 9) week_2026_01_05 3 /\
  exists out g',
    _generate_random_weekday_dates 10 (ymd 2026 1 5) (ymd 2026 1 9) week_2026_01_05 3
      (tape_of [2; 2; 1; 1; 2]%nat) = (Ok out, g') /\
    (forall i x y, nth_error out i = Some x -> nth_error out (S i) = Some y -> x <= y) /\
    contiguous_runs out.
Proof.
  assert (Hv : valid_input 10 (ymd 2026 1 5) (ymd 2026 1 9) week_2026_01_05 3)
    by week_is_valid.
  split; [exact Hv | apply (generate_nondecreasing _ _ _ _ _ _ Hv)].
Defined.

(** C3. For every valid input, the pool computed by [_weekdays_in_range] is
    the ascending, duplicate-free list of exactly the weekdays of
    [start_date .. end_date]; it is the list of dates the generator draws
    from; and every element of the output is one of its members, hence a
    weekday (Monday to Friday) within the range. *)
Theorem generate_weekdays_in_range (count : Z) (start_date end_date : date)
    (pool : list date) (cap : Z) (g : rng) :
  valid_input count start_date end_date pool cap ->
  (StronglySorted Z.lt pool /\ NoDup pool /\
   forall d, In d pool <-> start_date <= d <= end_date /\ 0 <= weekday d <= 4) /\
  select_dates start_date end_date pool = Ok pool /\
  exists out g',
    _generate_random_weekday_dates count start_date end_date pool cap g = (Ok out, g') /\
    Forall (fun d => In d pool /\ start_date <= d <= end_date /\ 0 <= weekday d <= 4) out.
Proof.
  intros Hv. destruct (generate_valid _ _ _ _ _ g Hv) as (out & g' & Hrun & Hgen).
  destruct (valid_range_pool _ _ _ (valid_dates _ _ _ _ _ Hv)) as (Hne & Hsel & Hs & Hin).
  assert (Hpool : forall d, In d pool <-> start_date <= d <= end_date /\ 0 <= weekday d <= 4).
  { intros d. rewrite Hin. pose proof (weekday_range d). lia. }
  split; [|split].
  - split; [exact Hs|]. split; [apply strictly_sorted_NoDup, Hs | exact Hpool].
  - exact Hsel.
  - exists out, g'. split; [exact Hrun|]. apply Forall_forall. intros d Hd.
    pose proof (gen_from _ _ _ _ Hgen d Hd) as Hp. split; [exact Hp|]. apply Hpool, Hp.
Qed.

Lemma generate_weekdays_in_range_witness :
  valid_input 7 (ymd 2026 1 5) (ymd 2026 1 9) week_2026_01_05 3 /\
  (StronglySorted Z.lt week_2026_01_05 /\ NoDup week_2026_01_05 /\
   forall d, In d week_2026_01_05 <->
             ymd 2026 1 5 <= d <= ymd 2026 1 9 /\ 0 <= weekday d <= 4) /\
  select_dates (ymd 2026 1 5) (ymd 2026 1 9) week_2026_01_05 = Ok week_2026_01_05 /\
  exists out g',
    _generate_random_weekday_dates 7 (ymd 2026 1 5) (ymd 2026 1 9) week_2026_01_05 3
      (tape_of [4; 0]%nat) = (Ok out, g') /\
    Forall (fun d => In d week_2026_01_05 /\
                     ymd 2026 1 5 <= d <= ymd 2026 1 9 /\ 0 <= weekday d <= 4) out.
Proof.
  assert (Hv : valid_input 7 (ymd 2026 1 5) (ymd 2026 1 9) week_2026_01_05 3)
    by week_is_valid.
  split; [exact Hv | apply (generate_weekdays_in_range _ _ _ _ _ _ Hv)].
Defined.

(** C4. For every valid input no date occurs more than
    [max_repeats_per_date] times in the output; and at the head of every turn
    of the extras loop some index is still below the cap, so
    [_weighted_choice_index] returns one and its ValueError is never raised. *)
Theorem generate_repeat_cap (count : Z) (start_date end_date : date)
    (pool : list date) (cap : Z) (g : rng) :
  valid_input count start_date end_date pool cap ->
  (exists out g',
     _generate_random_weekday_dates count start_date end_date pool cap g = (Ok out, g') /\
     forall d, occurrences out d <= cap) /\
  (forall extras repeats g1,
     extras_loop (_bell_weights (len pool)) cap
       (Z.to_nat (count - len pool), repeat 1 (Z.to_nat (len pool)), g)
       (S extras, repeats, g1) ->
     eligible_indices repeats cap <> [] /\
     exists idx r g2,
       _weighted_choice_index (_bell_weights (len pool)) repeats cap g1 = (Ok idx, g2) /\
       nth_error repeats idx = Some r /\ r < cap).
Proof.
  intros Hv. split.
  - destruct (generate_valid _ _ _ _ _ g Hv) as (out & g' & Hrun & Hgen).
    exists out, g'. split; [exact Hrun | apply Hgen].
  - intros extras repeats g1 Hloop.
    destruct Hv as [Hc Hr Hcap Hf].
    destruct (feasible_positive count cap pool Hc Hf) as [_ Hm].
    apply loop_inv_choice with (extras := extras).
    eapply extras_loop_inv; [exact Hloop|].
    apply loop_inv_initial; assumption.
Qed.

Lemma generate_repeat_cap_witness :
  valid_input 15 (ymd 2026 1 5) (ymd 2026 1 9) week_2026_01_05 3 /\
  (exists out g',
     _generate_random_weekday_dates 15 (ymd 2026 1 5) (ymd 2026 1 9) week_2026_01_05 3
       (tape_of [2; 2; 1; 1; 2]%nat) = (Ok out, g') /\
     forall d, occurrences out d <= 3) /\
  (forall extras repeats g1,
     extras_loop (_bell_weights (len week_2026_01_05)) 3
       (Z.to_nat (15 - len week_2026_01_05), repeat 1 (Z.to_nat (len week_2026_01_05)),
        tape_of [2; 2; 1; 1; 2]%nat)
       (S extras, repeats, g1) ->
     eligible_indices repeats 3 <> [] /\
     exists idx r g2,
       _weighted_choice_index (_bell_weights (len week_2026_01_05)) repeats 3 g1
         = (Ok idx, g2) /\
       nth_error repeats idx = Some r /\ r < 3).
Proof.
  assert (Hv : valid_input 15 (ymd 2026 1 5) (ymd 2026 1 9) week_2026_01_05 3)
    by week_is_valid.
  split; [exact Hv | apply (generate_repeat_cap _ _ _ _ _ _ Hv)].
Defined.

(** C5. Whenever [count <= |pool|] (with count >= 1 and a cap >= 1 over a
    valid range), whatever the random draw, the output consists of [count]
    pairwise distinct dates in strictly increasing order. *)
Theorem generate_distinct (count : Z) (start_date end_date : date)
    (pool : list date) (cap : Z) (g : rng) :
  valid_range start_date end_date pool ->
  1 <= count -> 1 <= cap -> count <= len pool ->
  exists out g',
    _generate_random_weekday_dates count start_date end_date pool cap g = (Ok out, g') /\
    len out = count /\ StronglySorted Z.lt out /\ NoDup out.
Proof.
  intros Hr Hc Hcap Hle.
  assert (Hv : valid_input count start_date end_date pool cap).
  { constructor; try assumption. unfold len in *. nia. }
  destruct (generate_valid _ _ _ _ _ g Hv) as (out & g' & Hrun & Hgen).
  exists out, g'. split; [exact Hrun|].
  pose proof (gen_distinct _ _ _ _ Hgen Hle) as Hs.
  split; [apply Hgen|]. split; [exact Hs | apply strictly_sorted_NoDup, Hs].
Qed.

Lemma generate_distinct_witness :
  valid_range (ymd 2026 1 5) (ymd 2026 1 9) week_2026_01_05 /\
  1 <= 3 /\ 1 <= 3 /\ 3 <= len week_2026_01_05 /\
  exists out g',
    _generate_random_weekday_dates 3 (ymd 2026 1 5) (ymd 2026 1 9) week_2026_01_05 3
      (tape_of [0; 1; 2]%nat) = (Ok out, g') /\
    len out = 3 /\ StronglySorted Z.lt out /\ NoDup out.
Proof.
  assert (Hr : valid_range (ymd 2026 1 5) (ymd 2026 1 9) week_2026_01_05)
    by (constructor; closed).
  assert (H1 : 1 <= 3) by lia.
  assert (H2 : 3 <= len week_2026_01_05) by closed.
  repeat (split; [assumption|]).
  apply (generate_distinct _ _ _ _ _ _ Hr H1 H1 H2).
Defined.

(** C6. Over a valid range and for a positive count, the call fails with the
    "Cannot assign" ValueError exactly when [count > max_repeats_per_date *
    |pool|]: in that case the error is raised with the random source
    untouched (no allocation, no draw) and nothing is returned; otherwise a
    list is returned. *)
Theorem generate_infeasible_iff (count : Z) (start_date end_date : date)
    (pool : list date) (cap : Z) (g : rng) :
  valid_range start_date end_date pool ->
  1 <= count ->
  (cap * len pool < count ->
   _generate_random_weekday_dates count start_date end_date pool cap g =
     (Raise (ValueError (CannotAssign count cap (len pool) (cap * len pool))), g)) /\
  (count <= cap * len pool ->
   exists out g',
     _generate_random_weekday_dates count start_date end_date pool cap g = (Ok out, g')).
Proof.
  intros Hr Hc. destruct (valid_range_pool _ _ _ Hr) as (Hne & Hsel & Hl). split.
  - intros Hinf. apply generate_infeasible; assumption.
  - intros Hf. destruct (feasible_positive count cap pool Hc Hf) as [Hcap _].
    destruct (generate_valid count start_date end_date pool cap g) as (out & g' & Hrun & _).
    { constructor; assumption. }
    exists out, g'. exact Hrun.
Qed.

(** The example of the specification: the single weekday 2026-01-05,
    count = 2, cap = 1. *)
Lemma generate_infeasible_iff_witness :
  valid_range (ymd 2026 1 5) (ymd 2026 1 5) [ymd 2026 1 5] /\ 1 <= 2 /\
  _generate_random_weekday_dates 2 (ymd 2026 1 5) (ymd 2026 1 5) [ymd 2026 1 5] 1
    (tape_of []) = (Raise (ValueError (CannotAssign 2 1 1 1)), tape_of []).
Proof.
  assert (Hr : valid_range (ymd 2026 1 5) (ymd 2026 1 5) [ymd 2026 1 5])
    by (constructor; closed).
  assert (H1 : 1 <= 2) by lia.
  split; [exact Hr|]. split; [exact H1|].
  apply (generate_infeasible_iff 2 _ _ _ 1 (tape_of []) Hr H1). closed.
Defined.

(** C7, as the code has it. For every non-positive count the generator
    returns the empty list at once: no exception is raised, nothing is
    allocated and the random source is left untouched. *)
Theorem generate_nonpositive_empty (count : Z) (start_date end_date : date)
    (allowed_weekdays : list date) (cap : Z) (g : rng) :
  count <= 0 ->
  _generate_random_weekday_dates count start_date end_date allowed_weekdays cap g
    = (Ok [], g).
Proof. apply generate_nonpositive. Qed.

Lemma generate_nonpositive_empty_witness :
  0 <= 0 /\
  _generate_random_weekday_dates 0 (ymd 2026 1 5) (ymd 2026 1 9) week_2026_01_05 3
    (tape_of []) = (Ok [], tape_of []).
Proof.
  assert (H0 : 0 <= 0) by lia.
  split; [exact H0 | apply (generate_nonpositive_empty 0 _ _ _ _ _ H0)].
Defined.

(** C7 as stated fails: with count = 0 (and with count = -1) the call
    raises nothing. *)
Lemma generate_nonpositive_raises_counterexample :
  ~ (forall count, count <= 0 ->
       exists e g',
         _generate_random_weekday_dates count (ymd 2026 1 5) (ymd 2026 1 9)
           week_2026_01_05 3 (tape_of []) = (Raise e, g')).
Proof.
  intros H. destruct (H 0 ltac:(lia)) as (e & g' & Hrun).
  vm_compute in Hrun. discriminate Hrun.
Qed.

(** C8, as the code has it. Over a range of exactly 5 weekdays, with
    count = 10 and cap = 3, every draw yields 10 dates in which each of the 5
    weekdays occurs at least once and at most three times, in non-decreasing
    order and with one contiguous run per date. *)
Theorem generate_five_weekdays_ten (start_date end_date : date) (pool : list date)
    (g : rng) :
  valid_range start_date end_date pool -> len pool = 5 ->
  exists out g',
    _generate_random_weekday_dates 10 start_date end_date pool 3 g = (Ok out, g') /\
    len out = 10 /\
    (forall d, In d pool -> 1 <= occurrences out d <= 3) /\
    (forall d, In d out -> In d pool) /\
    (forall i x y, nth_error out i = Some x -> nth_error out (S i) = Some y -> x <= y) /\
    contiguous_runs out.
Proof.
  intros Hr Hm.
  assert (Hv : valid_input 10 start_date end_date pool 3).
  { constructor; [lia | exact Hr | lia | rewrite Hm; lia]. }
  destruct (generate_valid _ _ _ _ _ g Hv) as (out & g' & Hrun & Hgen).
  exists out, g'. split; [exact Hrun|]. pose proof (gen_sorted _ _ _ _ Hgen) as Hs.
  split; [apply Hgen|]. split; [|split; [apply Hgen|split]].
  - intros d Hd. split; [|apply Hgen].
    apply (gen_all _ _ _ _ Hgen); [lia | exact Hd].
  - intros i x y Hx Hy. eapply (sorted_nth_error_le out Hs i (S i)); [lia | eassumption..].
  - apply sorted_contiguous, Hs.
Qed.

Lemma generate_five_weekdays_ten_witness :
  valid_range (ymd 2026 1 5) (ymd 2026 1 9) week_2026_01_05 /\
  len week_2026_01_05 = 5 /\
  exists out g',
    _generate_random_weekday_dates 10 (ymd 2026 1 5) (ymd 2026 1 9) week_2026_01_05 3
      (tape_of [2; 2; 1; 1; 4]%nat) = (Ok out, g') /\
    len out = 10 /\
    (forall d, In d week_2026_01_05 -> 1 <= occurrences out d <= 3) /\
    (forall d, In d out -> In d week_2026_01_05) /\
    (forall i x y, nth_error out i = Some x -> nth_error out (S i) = Some y -> x <= y) /\
    contiguous_runs out.
Proof.
  assert (Hr : valid_range (ymd 2026 1 5) (ymd 2026 1 9) week_2026_01_05)
    by (constructor; closed).
  assert (Hm : len week_2026_01_05 = 5) by reflexivity.
  split; [exact Hr|]. split; [exact Hm|].
  apply (generate_five_weekdays_ten _ _ _ _ Hr Hm).
Defined.

(** C8 as stated fails: a draw that picks the middle date twice, then its
    left neighbour twice, then the last date gives the repeat counts
    1, 3, 3, 1, 2, so Monday 2026-01-05 occurs once, not twice. *)
Lemma generate_five_weekdays_twice_counterexample :
  ~ (forall g out g',
       _generate_random_weekday_dates 10 (ymd 2026 1 5) (ymd 2026 1 9)
         week_2026_01_05 3 g = (Ok out, g') ->
       forall d, In d week_2026_01_05 -> occurrences out d = 2).
Proof.
  intros H.
  pose (g := tape_of [2; 2; 1; 1; 2]%nat).
  pose (run := _generate_random_weekday_dates 10 (ymd 2026 1 5) (ymd 2026 1 9)
                 week_2026_01_05 3 g).
  assert (Hout : fst run =
            Ok [ymd 2026 1 5; ymd 2026 1 6; ymd 2026 1 6; ymd 2026 1 6;
                ymd 2026 1 7; ymd 2026 1 7; ymd 2026 1 7; ymd 2026 1 8;
                ymd 2026 1 9; ymd 2026 1 9]) by (vm_compute; reflexivity).
  destruct run as [r g'] eqn:Hrun. simpl in Hout. subst r.
  specialize (H g _ g' Hrun (ymd 2026 1 5) ltac:(left; reflexivity)).
  vm_compute in H. discriminate H.
Qed.

(** ** The expiration date *)

Example expiration_2026_01_05 :
  _add_days_adjust_weekday (ymd 2026 1 5) 30 = Ok (ymd 2026 2 4) /\
  weekday (ymd 2026 1 5) = 0 /\ weekday (ymd 2026 2 4) = 2.
Proof. repeat split; vm_compute; reflexivity. Qed.

Example expiration_rolls_to_monday :
  weekday (ymd 2026 1 5 + 33) = 5 /\
  _add_days_adjust_weekday (ymd 2026 1 5) 33 = Ok (ymd 2026 2 9) /\
  weekday (ymd 2026 2 9) = 0.
Proof. repeat split; vm_compute; reflexivity. Qed.

(** C9. For every invoice date [d] and every offset [n] in days, [d + n]
    being a date, the expiration derivation returns the first weekday on or
    after [d + n]: [d + n] itself when that is a weekday, and otherwise the
    Monday that follows the Saturday or Sunday, every day skipped being a
    weekend day.  The function takes no random source and no cap. *)
Theorem expiration_first_weekday (d : date) (n : Z) :
  is_date d -> is_date (d + n) ->
  exists r,
    _add_days_adjust_weekday d n = Ok r /\
    d + n <= r /\ 0 <= weekday r <= 4 /\
    (forall x, d + n <= x < r -> 5 <= weekday x <= 6) /\
    (weekday (d + n) <= 4 -> r = d + n) /\
    (5 <= weekday (d + n) -> weekday r = 0 /\ r <= d + n + 2).
Proof.
  unfold is_date, MINORD. intros Hd Hs.
  assert (HM : MAXORD = 3652059) by reflexivity.
  unfold _add_days_adjust_weekday, timedelta, date_add, MINORD.
  destruct (Z.leb_spec (-999999999) n); [|lia].
  destruct (Z.leb_spec n 999999999); [|lia]. simpl.
  destruct (Z.leb_spec 1 (d + n)); [|lia].
  destruct (Z.leb_spec (d + n) MAXORD); [|lia]. simpl.
  rewrite adjust_forward_spec by (unfold is_date, MINORD; lia).
  set (s := d + n) in *.
  pose proof (weekday_range s) as Hr.
  pose proof (weekday_succ s) as Hs1.
  pose proof (weekday_succ (s + 1)) as Hs2.
  replace (s + 1 + 1) with (s + 2) in Hs2 by lia.
  destruct (Z.eqb_spec (weekday s) 5) as [E5|E5].
  - rewrite E5 in Hs1. simpl in Hs1. rewrite Hs1 in Hs2. simpl in Hs2.
    exists (s + 2). split; [reflexivity|]. repeat split; try lia.
    + assert (x = s \/ x = s + 1) as [->| ->] by lia; lia.
    + assert (x = s \/ x = s + 1) as [->| ->] by lia; lia.
  - destruct (Z.eqb_spec (weekday s) 6) as [E6|E6].
    + exists (s + 1). split; [reflexivity|]. repeat split; try lia.
      * assert (x = s) as -> by lia. lia.
      * assert (x = s) as -> by lia. lia.
    + exists s. split; [reflexivity|]. repeat split; try lia.
Qed.

Lemma expiration_first_weekday_witness :
  is_date (ymd 2026 1 5) /\ is_date (ymd 2026 1 5 + 30) /\
  exists r,
    _add_days_adjust_weekday (ymd 2026 1 5) 30 = Ok r /\
    ymd 2026 1 5 + 30 <= r /\ 0 <= weekday r <= 4 /\
    (forall x, ymd 2026 1 5 + 30 <= x < r -> 5 <= weekday x <= 6) /\
    (weekday (ymd 2026 1 5 + 30) <= 4 -> r = ymd 2026 1 5 + 30) /\
    (5 <= weekday (ymd 2026 1 5 + 30) -> weekday r = 0 /\ r <= ymd 2026 1 5 + 30 + 2).
Proof.
  assert (H1 : is_date (ymd 2026 1 5)) by (split; closed).
  assert (H2 : is_date (ymd 2026 1 5 + 30)) by (split; closed).
  split; [exact H1|]. split; [exact H2|].
  apply (expiration_first_weekday _ _ H1 H2).
Defined.

(** ** The page cap *)

Lemma write_pages_values (config : InvoiceDatesConfig) (col row step : Z)
    (pages : list (nat * date)) :
  (length (filter is_set_value (snd (write_pages config col row step pages)))
     <= 2 * length pages)%nat /\
  (fst (write_pages config col row step pages) = Ok tt ->
   length (filter is_set_value (snd (write_pages config col row step pages)))
     = (2 * length pages)%nat).
Proof.
  induction pages as [|[page_index inv_date] rest [IHle IHeq]]; simpl.
  - split; [lia | reflexivity].
  - destruct (_add_days_adjust_weekday inv_date (expiration_days config)) as [exp_date|e].
    + destruct (write_pages config col row step rest) as [r log]. simpl in *.
      split; [lia|]. intros Hr. rewrite (IHeq Hr). lia.
    + simpl. split; [lia | discriminate].
Qed.

Lemma pages_written_between (opening written closing : list com_event) :
  filter is_set_value opening = [] -> filter is_set_value closing = [] ->
  pages_written (opening ++ written ++ closing) = len (filter is_set_value written) / 2.
Proof.
  intros Ho Hc. unfold pages_written. rewrite !filter_app, Ho, Hc, app_nil_r. reflexivity.
Qed.

Lemma enumerate_length {A} (l : list A) : length (enumerate l) = length l.
Proof. unfold enumerate. rewrite length_combine, length_seq. lia. Qed.

Section ApplyFacts.

Variable abspath : string -> string.
Variable path_exists : string -> bool.

Lemma apply_nonpositive (file_path : string) (total_pages : Z)
    (start_date end_date : date) (config : InvoiceDatesConfig)
    (sheet_index : Z) (visible : bool) (g : rng) :
  total_pages <= 0 ->
  apply_invoice_and_expiration_dates abspath path_exists file_path total_pages
    start_date end_date config sheet_index visible g
  = {| returned := Ok tt; rng_after := g; com_log := [] |}.
Proof.
  intros Hn. unfold apply_invoice_and_expiration_dates.
  destruct (Z.leb_spec total_pages 0); [reflexivity | lia].
Qed.

Lemma apply_truncates (file_path : string) (total_pages : Z)
    (start_date end_date : date) (config : InvoiceDatesConfig)
    (sheet_index : Z) (visible : bool) (g : rng) :
  0 < max_pages config -> max_pages config < total_pages ->
  apply_invoice_and_expiration_dates abspath path_exists file_path total_pages
    start_date end_date config sheet_index visible g
  = apply_invoice_and_expiration_dates abspath path_exists file_path (max_pages config)
      start_date end_date config sheet_index visible g.
Proof.
  intros Hpos Hgt. unfold apply_invoice_and_expiration_dates.
  destruct (Z.leb_spec total_pages 0); [lia|].
  destruct (Z.leb_spec (max_pages config) 0); [lia|].
  rewrite Z.min_r by lia. rewrite Z.min_id. reflexivity.
Qed.

Lemma apply_pages (file_path : string) (total_pages : Z)
    (start_date end_date : date) (config : InvoiceDatesConfig)
    (sheet_index : Z) (visible : bool) (g : rng) :
  0 < total_pages -> 0 < max_pages config ->
  let o := apply_invoice_and_expiration_dates abspath path_exists file_path total_pages
             start_date end_date config sheet_index visible g in
  0 <= pages_written (com_log o) <= Z.min total_pages (max_pages config) /\
  (returned o = Ok tt ->
   pages_written (com_log o) = Z.min total_pages (max_pages config)).
Proof.
  intros Htp Hmax. cbv zeta.
  set (count := Z.min total_pages (max_pages config)).
  assert (Hcount : 1 <= count) by (unfold count; lia).
  assert (Hfail : forall e g',
            0 <= pages_written (com_log {| returned := Raise e; rng_after := g'; com_log := [] |})
              <= count /\
            (returned {| returned := Raise e; rng_after := g'; com_log := [] |} = Ok tt ->
             pages_written (com_log {| returned := Raise e; rng_after := g'; com_log := [] |})
               = count)).
  { intros e g'. simpl. change (pages_written []) with 0.
    split; [lia | discriminate]. }
  unfold apply_invoice_and_expiration_dates. fold count.
  destruct (Z.leb_spec total_pages 0); [lia|].
  destruct ((5 <=? weekday start_date) || (5 <=? weekday end_date)) eqn:Hwd; [apply Hfail|].
  apply orb_false_elim in Hwd. destruct Hwd as [Hws Hwe].
  apply Z.leb_gt in Hws, Hwe.
  destruct (Z.ltb_spec end_date start_date) as [Hlt|Hle]; [apply Hfail|].
  destruct (negb (path_exists (abspath file_path))); [apply Hfail|].
  destruct (_cell_to_col_row (first_page_invoice_cell config)) as [[invoice_col first_row]|e1];
    [|apply Hfail].
  destruct (_cell_to_col_row (second_page_invoice_cell config)) as [[c2 second_row]|e2];
    [|apply Hfail].
  destruct (Z.leb_spec (second_row - first_row) 0); [apply Hfail|].
  destruct (_weekdays_in_range start_date end_date) as [[|a pool]|e3] eqn:Hpool;
    [apply Hfail | | apply Hfail].
  assert (Hr : valid_range start_date end_date (a :: pool)) by (constructor; assumption).
  destruct (valid_range_pool _ _ _ Hr) as (Hne & Hsel & Hl).
  destruct (Z.lt_ge_cases (3 * len (a :: pool)) count) as [Hinf|Hfeas].
  - rewrite (generate_infeasible count start_date end_date (a :: pool) (a :: pool) 3 g)
      by assumption.
    apply Hfail.
  - destruct (generate_valid count start_date end_date (a :: pool) 3 g)
      as (out & g' & Hrun & Hgen); [constructor; (assumption || lia)|].
    rewrite Hrun.
    pose proof (write_pages_values config invoice_col first_row (second_row - first_row)
                  (enumerate out)) as [Hwle Hweq].
    rewrite enumerate_length in Hwle, Hweq.
    pose proof (gen_length _ _ _ _ Hgen) as Hlen. unfold len in Hlen.
    destruct (write_pages config invoice_col first_row (second_row - first_row)
                (enumerate out)) as [[[]|e] written]; simpl in Hwle, Hweq;
      cbv beta iota zeta; cbn [com_log returned];
      rewrite pages_written_between by reflexivity; unfold len.
    + rewrite Hweq by reflexivity.
      replace (Z.of_nat (length out + (length out + 0))) with (count * 2) by lia.
      rewrite Z.div_mul by lia. split; [lia | reflexivity].
    + split; [|discriminate]. split.
      * apply Z.div_pos; lia.
      * apply Z.div_le_upper_bound; lia.
Qed.

End ApplyFacts.

(** Sixty pages asked over the eight weeks from 2026-01-05 to 2026-02-27:
    the call returns normally and writes fifty pages. *)
Example apply_sixty_pages :
  let o := apply_invoice_and_expiration_dates (fun p => p) (fun _ => true)
             "invoices.xlsx" 60 (ymd 2026 1 5) (ymd 2026 2 27) default_config 1 false
             (tape_of [])
  in returned o = Ok tt /\ pages_written (com_log o) = 50.
Proof. vm_compute. split; reflexivity. Qed.

(** C10. With [max_pages] configured to 50,
    [apply_invoice_and_expiration_dates] generates and writes dates for at
    most [min(total_pages, 50)] pages, and for exactly that many when it
    returns normally; a [total_pages] above 50 behaves as 50 itself, the
    truncation raising nothing of its own; and for [total_pages <= 0] the
    call returns at once, without an exception, without a draw from the
    random source and without a request to the spreadsheet host. *)
Theorem apply_page_cap (abspath : string -> string) (path_exists : string -> bool)
    (file_path : string) (total_pages : Z) (start_date end_date : date)
    (config : InvoiceDatesConfig) (sheet_index : Z) (visible : bool) (g : rng) :
  max_pages config = 50 ->
  let run := fun pages =>
    apply_invoice_and_expiration_dates abspath path_exists file_path pages
      start_date end_date config sheet_index visible g in
  (total_pages <= 0 ->
   run total_pages = {| returned := Ok tt; rng_after := g; com_log := [] |}) /\
  (50 < total_pages -> run total_pages = run 50) /\
  (0 < total_pages ->
   0 <= pages_written (com_log (run total_pages)) <= Z.min total_pages 50 /\
   (returned (run total_pages) = Ok tt ->
    pages_written (com_log (run total_pages)) = Z.min total_pages 50)).
Proof.
  intros Hmax run. subst run. cbv beta. split; [|split].
  - apply apply_nonpositive.
  - intros Hgt. rewrite <- Hmax. apply apply_truncates; lia.
  - intros Hpos. rewrite <- Hmax.
    apply (apply_pages abspath path_exists file_path total_pages start_date end_date
             config sheet_index visible g); lia.
Qed.

Lemma apply_page_cap_witness :
  max_pages default_config = 50 /\
  let run := fun pages =>
    apply_invoice_and_expiration_dates (fun p => p) (fun _ => true) "invoices.xlsx" pages
      (ymd 2026 1 5) (ymd 2026 2 27) default_config 1 false (tape_of []) in
  (60 <= 0 ->
   run 60 = {| returned := Ok tt; rng_after := tape_of []; com_log := [] |}) /\
  (50 < 60 -> run 60 = run 50) /\
  (0 < 60 ->
   0 <= pages_written (com_log (run 60)) <= Z.min 60 50 /\
   (returned (run 60) = Ok tt -> pages_written (com_log (run 60)) = Z.min 60 50)).
Proof.
  assert (Hmax : max_pages default_config = 50) by reflexivity.
  split; [exact Hmax|].
  apply (apply_page_cap (fun p => p) (fun _ => true) "invoices.xlsx" 60
           (ymd 2026 1 5) (ymd 2026 2 27) default_config 1 false (tape_of []) Hmax).
Defined.

(** * Further properties of the code *)

(** ** [_weekdays_in_range] *)

(** X1. For every range of dates that ends before [date.max], whatever the
    weekdays of its bounds, [_weekdays_in_range] returns the strictly
    ascending list of exactly the weekdays from [start] to [end]; an inverted
    range gives the empty list, not an error. *)
Theorem weekdays_in_range_total (start end_ : date) :
  MINORD <= start -> end_ < MAXORD ->
  exists pool,
    _weekdays_in_range start end_ = Ok pool /\
    StronglySorted Z.lt pool /\
    (forall d, In d pool <-> start <= d <= end_ /\ 0 <= weekday d <= 4) /\
    (end_ < start -> pool = []).
Proof.
  intros Hlo Hhi.
  destruct (weekdays_in_range_ok start end_ Hlo Hhi) as (pool & Hp & Hs & Hin).
  exists pool. split; [exact Hp|]. split; [exact Hs|]. split.
  - intros d. rewrite Hin. pose proof (weekday_range d). lia.
  - intros Hinv. destruct pool as [|d t]; [reflexivity|].
    assert (Hd : In d (d :: t)) by (left; reflexivity).
    apply Hin in Hd. lia.
Qed.

Lemma weekdays_in_range_total_witness :
  MINORD <= ymd 2026 1 3 /\ ymd 2026 1 11 < MAXORD /\
  exists pool,
    _weekdays_in_range (ymd 2026 1 3) (ymd 2026 1 11) = Ok pool /\
    StronglySorted Z.lt pool /\
    (forall d, In d pool <->
               ymd 2026 1 3 <= d <= ymd 2026 1 11 /\ 0 <= weekday d <= 4) /\
    (ymd 2026 1 11 < ymd 2026 1 3 -> pool = []).
Proof.
  assert (H1 : MINORD <= ymd 2026 1 3) by closed.
  assert (H2 : ymd 2026 1 11 < MAXORD) by closed.
  split; [exact H1|]. split; [exact H2|].
  apply (weekdays_in_range_total _ _ H1 H2).
Defined.

(** X2. A range that starts on or before [date.max] and ends on it makes
    [_weekdays_in_range] raise OverflowError: after the last day the loop
    steps past [date.max] before it tests [cur <= end]. *)
Theorem weekdays_in_range_date_max (start : date) :
  start <= MAXORD ->
  _weekdays_in_range start MAXORD = Raise OverflowError.
Proof.
  intros Hs. unfold _weekdays_in_range. apply weekdays_loop_overflow; lia.
Qed.

Lemma weekdays_in_range_date_max_witness :
  ymd 9999 12 27 <= MAXORD /\
  _weekdays_in_range (ymd 9999 12 27) (ymd 9999 12 31) = Raise OverflowError.
Proof.
  assert (H1 : ymd 9999 12 27 <= MAXORD) by closed.
  split; [exact H1 | apply (weekdays_in_range_date_max _ H1)].
Defined.

(** X3. Seven consecutive days hold five weekdays: for every week of dates
    that ends before [date.max], [_weekdays_in_range(s, s + 6 days)] returns
    a list of length 5. *)
Theorem weekdays_of_seven_days (s : date) :
  MINORD <= s -> s + 6 < MAXORD ->
  exists pool, _weekdays_in_range s (s + 6) = Ok pool /\ len pool = 5.
Proof.
  intros Hlo Hhi.
  destruct (weekdays_in_range_ok s (s + 6) Hlo Hhi) as (pool & Hp & Hs & Hin).
  exists pool. split; [exact Hp|].
  pose (days := [s; s + 1; s + 2; s + 3; s + 4; s + 5; s + 6]).
  pose (week := filter (fun d => weekday d <? 5) days).
  assert (Hnd : NoDup days).
  { unfold days. repeat constructor; simpl; lia. }
  assert (Hperm : Permutation pool week).
  { apply NoDup_Permutation.
    - apply strictly_sorted_NoDup, Hs.
    - apply NoDup_filter, Hnd.
    - intros d. rewrite Hin. unfold week. rewrite filter_In, Z.ltb_lt.
      unfold days. simpl. lia. }
  unfold len. rewrite (Permutation_length Hperm).
  unfold week, days. cbn [filter].
  unfold weekday.
  repeat match goal with
         | |- context [?a <? 5] => destruct (Z.ltb_spec a 5)
         end;
    cbn [length]; first [reflexivity | exfalso; Z.to_euclidean_division_equations; lia].
Qed.

Lemma weekdays_of_seven_days_witness :
  MINORD <= ymd 2026 1 7 /\ ymd 2026 1 7 + 6 < MAXORD /\
  exists pool,
    _weekdays_in_range (ymd 2026 1 7) (ymd 2026 1 7 + 6) = Ok pool /\ len pool = 5.
Proof.
  assert (H1 : MINORD <= ymd 2026 1 7) by closed.
  assert (H2 : ymd 2026 1 7 + 6 < MAXORD) by closed.
  split; [exact H1|]. split; [exact H2|].
  apply (weekdays_of_seven_days _ H1 H2).
Defined.

(** ** [_add_days_adjust_weekday] *)

(** What a call that returns has computed: [d + days] is a date, and the
    result is that day rolled forward over a weekend. *)
Lemma add_days_inv (d days r : Z) :
  _add_days_adjust_weekday d days = Ok r ->
  is_date (d + days) /\
  r = (if weekday (d + days) =? 5 then d + days + 2
       else if weekday (d + days) =? 6 then d + days + 1 else d + days).
Proof.
  unfold _add_days_adjust_weekday, timedelta.
  destruct ((-999999999 <=? days) && (days <=? 999999999)); simpl; [|discriminate].
  destruct (date_add d days) as [s|e] eqn:Hs; simpl; [|discriminate].
  apply date_add_inv in Hs. destruct Hs as [-> Hd].
  rewrite (adjust_forward_spec _ Hd). intros [= <-]. split; [exact Hd | reflexivity].
Qed.

(** X4. For an invoice date [d] and an offset that takes [d + days] out of
    [date.min .. date.max], [_add_days_adjust_weekday] raises OverflowError
    and returns no date. *)
Theorem expiration_overflow (d days : Z) :
  is_date d -> ~ is_date (d + days) ->
  _add_days_adjust_weekday d days = Raise OverflowError.
Proof.
  intros Hd Hn. unfold _add_days_adjust_weekday, timedelta.
  destruct ((-999999999 <=? days) && (days <=? 999999999)); simpl; [|reflexivity].
  destruct (date_add d days) as [s|e] eqn:Hs; simpl.
  - apply date_add_inv in Hs. destruct Hs as [-> Hs]. contradiction.
  - apply date_add_raises in Hs. destruct Hs as [-> _]. reflexivity.
Qed.

Lemma expiration_overflow_witness :
  is_date (ymd 9999 12 15) /\ ~ is_date (ymd 9999 12 15 + 30) /\
  _add_days_adjust_weekday (ymd 9999 12 15) 30 = Raise OverflowError.
Proof.
  assert (H1 : is_date (ymd 9999 12 15)) by (split; closed).
  assert (H2 : ~ is_date (ymd 9999 12 15 + 30)).
  { intros [_ H]. vm_compute in H. apply H. reflexivity. }
  split; [exact H1|]. split; [exact H2|].
  apply (expiration_overflow _ _ H1 H2).
Defined.

(** X5. Expiration dates keep the order of the invoice dates: for one
    offset, a later (or equal) invoice date never gets an earlier expiration
    date. *)
Theorem expiration_monotone (d1 d2 days r1 r2 : Z) :
  _add_days_adjust_weekday d1 days = Ok r1 ->
  _add_days_adjust_weekday d2 days = Ok r2 ->
  d1 <= d2 -> r1 <= r2.
Proof.
  intros H1 H2 Hle.
  apply add_days_inv in H1. destruct H1 as [_ ->].
  apply add_days_inv in H2. destruct H2 as [_ ->].
  unfold weekday.
  repeat match goal with
         | |- context [?a =? ?b] => destruct (Z.eqb_spec a b)
         end; Z.to_euclidean_division_equations; lia.
Qed.

Lemma expiration_monotone_witness :
  _add_days_adjust_weekday (ymd 2026 1 8) 30 = Ok (ymd 2026 2 9) /\
  _add_days_adjust_weekday (ymd 2026 1 9) 30 = Ok (ymd 2026 2 9) /\
  ymd 2026 1 8 <= ymd 2026 1 9 /\ ymd 2026 2 9 <= ymd 2026 2 9.
Proof.
  assert (H1 : _add_days_adjust_weekday (ymd 2026 1 8) 30 = Ok (ymd 2026 2 9))
    by (vm_compute; reflexivity).
  assert (H2 : _add_days_adjust_weekday (ymd 2026 1 9) 30 = Ok (ymd 2026 2 9))
    by (vm_compute; reflexivity).
  assert (H3 : ymd 2026 1 8 <= ymd 2026 1 9) by closed.
  split; [exact H1|]. split; [exact H2|]. split; [exact H3|].
  apply (expiration_monotone _ _ _ _ _ H1 H2 H3).
Defined.

(** ** [_weighted_choice_index] *)



(** ** More on the generator *)

Lemma strictly_sorted_ext (l1 : list Z) :
  StronglySorted Z.lt l1 ->
  forall l2, StronglySorted Z.lt l2 ->
    (forall d, In d l1 <-> In d l2) -> l1 = l2.
Proof.
  induction 1 as [|x t Ht IH Hx]; intros l2 Hs2 Heq.
  - destruct l2 as [|y u]; [reflexivity|].
    exfalso. apply (proj2 (Heq y)). left; reflexivity.
  - destruct Hs2 as [|y u Hu Hy].
    + exfalso. apply (proj1 (Heq x)). left; reflexivity.
    + rewrite Forall_forall in Hx, Hy.
      assert (Hxy : x = y).
      { assert (H1 : In x (y :: u)) by (apply Heq; left; reflexivity).
        assert (H2 : In y (x :: t)) by (apply Heq; left; reflexivity).
        destruct H1 as [H1|H1]; [congruence|].
        destruct H2 as [H2|H2]; [congruence|].
        specialize (Hx _ H2). specialize (Hy _ H1). lia. }
      subst y. f_equal. apply IH; [exact Hu|].
      intros d. split; intros Hd.
      * assert (H1 : In d (x :: u)) by (apply Heq; right; exact Hd).
        destruct H1 as [H1|H1]; [|exact H1].
        subst d. specialize (Hx _ Hd). lia.
      * assert (H1 : In d (x :: t)) by (apply Heq; right; exact Hd).
        destruct H1 as [H1|H1]; [|exact H1].
        subst d. specialize (Hy _ Hd). lia.
Qed.

(** X7. When the number of pages is at least the number of weekdays of the
    range, every weekday of the range occurs in the output, for every draw. *)
Theorem generate_uses_every_weekday (count : Z) (start_date end_date : date)
    (pool : list date) (cap : Z) (g : rng) :
  valid_input count start_date end_date pool cap ->
  len pool <= count ->
  exists out g',
    _generate_random_weekday_dates count start_date end_date pool cap g = (Ok out, g') /\
    forall d, start_date <= d <= end_date -> 0 <= weekday d <= 4 -> In d out.
Proof.
  intros Hv Hm. destruct (generate_valid _ _ _ _ _ g Hv) as (out & g' & Hrun & Hgen).
  exists out, g'. split; [exact Hrun|]. intros d Hd Hw.
  destruct (valid_range_pool _ _ _ (valid_dates _ _ _ _ _ Hv)) as (_ & _ & _ & Hin).
  assert (Hp : In d pool) by (apply Hin; lia).
  pose proof (gen_all _ _ _ _ Hgen Hm d Hp) as Hocc. unfold occurrences in Hocc.
  apply (count_occ_In Z.eq_dec). lia.
Qed.

Lemma generate_uses_every_weekday_witness :
  valid_input 7 (ymd 2026 1 5) (ymd 2026 1 9) week_2026_01_05 3 /\
  len week_2026_01_05 <= 7 /\
  exists out g',
    _generate_random_weekday_dates 7 (ymd 2026 1 5) (ymd 2026 1 9) week_2026_01_05 3
      (tape_of [4; 4]%nat) = (Ok out, g') /\
    forall d, ymd 2026 1 5 <= d <= ymd 2026 1 9 -> 0 <= weekday d <= 4 -> In d out.
Proof.
  assert (Hv : valid_input 7 (ymd 2026 1 5) (ymd 2026 1 9) week_2026_01_05 3)
    by week_is_valid.
  assert (Hm : len week_2026_01_05 <= 7) by closed.
  split; [exact Hv|]. split; [exact Hm|].
  apply (generate_uses_every_weekday _ _ _ _ _ _ Hv Hm).
Defined.

(** X8. With exactly as many pages as weekdays in the range, the draw does
    not matter: the output is the pool itself, each weekday once. *)
Theorem generate_one_page_per_weekday (start_date end_date : date) (pool : list date)
    (cap : Z) (g : rng) :
  valid_range start_date end_date pool -> 1 <= cap ->
  exists g',
    _generate_random_weekday_dates (len pool) start_date end_date pool cap g
      = (Ok pool, g').
Proof.
  intros Hr Hcap.
  destruct (valid_range_pool _ _ _ Hr) as (Hne & _ & Hs & _).
  assert (Hm : 1 <= len pool).
  { unfold len. destruct pool; [contradiction | simpl length; lia]. }
  assert (Hv : valid_input (len pool) start_date end_date pool cap).
  { constructor; try assumption. nia. }
  destruct (generate_valid _ _ _ _ _ g Hv) as (out & g' & Hrun & Hgen).
  exists g'. rewrite Hrun. f_equal. f_equal.
  apply strictly_sorted_ext.
  - apply (gen_distinct _ _ _ _ Hgen). lia.
  - exact Hs.
  - intros d. split; [apply Hgen|]. intros Hd.
    pose proof (gen_all _ _ _ _ Hgen ltac:(lia) d Hd) as Hocc. unfold occurrences in Hocc.
    apply (count_occ_In Z.eq_dec). lia.
Qed.

Lemma generate_one_page_per_weekday_witness :
  valid_range (ymd 2026 1 5) (ymd 2026 1 9) week_2026_01_05 /\ 1 <= 3 /\
  exists g',
    _generate_random_weekday_dates (len week_2026_01_05) (ymd 2026 1 5) (ymd 2026 1 9)
      week_2026_01_05 3 (tape_of [3; 1; 4; 1; 5]%nat) = (Ok week_2026_01_05, g').
Proof.
  assert (Hr : valid_range (ymd 2026 1 5) (ymd 2026 1 9) week_2026_01_05)
    by (constructor; closed).
  assert (H1 : 1 <= 3) by lia.
  split; [exact Hr|]. split; [exact H1|].
  apply (generate_one_page_per_weekday _ _ _ _ _ Hr H1).
Defined.

Lemma expand_ones (dates : list date) :
  expand dates (repeat 1 (length dates)) = dates.
Proof.
  induction dates as [|d ds IH]; [reflexivity|].
  simpl repeat. rewrite expand_cons, IH. reflexivity.
Qed.

Lemma sum_list_le_cap (cap : Z) (l : list Z) :
  Forall (fun r => r <= cap) l -> sum_list l <= cap * len l.
Proof.
  unfold len. induction 1 as [|x t Hx Ht IH]; simpl sum_list; simpl length; lia.
Qed.

Lemma all_at_cap (cap : Z) (l : list Z) :
  Forall (fun r => r <= cap) l -> sum_list l = cap * len l ->
  l = repeat cap (length l).
Proof.
  unfold len. induction 1 as [|x t Hx Ht IH]; intros Hsum; [reflexivity|].
  pose proof (sum_list_le_cap cap t Ht) as Hle. unfold len in Hle.
  simpl sum_list in Hsum. simpl length in Hsum. simpl.
  assert (x = cap) by lia. subst x. f_equal. apply IH. lia.
Qed.

(** The repeat counts behind the output when dates have to repeat. *)
Lemma generate_repeats (count : Z) (start_date end_date : date)
    (allowed dates : list date) (cap : Z) (g : rng) :
  allowed <> [] ->
  select_dates start_date end_date allowed = Ok dates ->
  len dates < count -> count <= cap * len dates ->
  exists repeats g',
    _generate_random_weekday_dates count start_date end_date allowed cap g
      = (Ok (expand dates repeats), g') /\
    length repeats = length dates /\
    Forall (fun r => 1 <= r <= cap) repeats /\
    sum_list repeats = count.
Proof.
  intros Hne Hsel Hgt Hf.
  assert (Hc : 1 <= count) by (unfold len in *; lia).
  destruct (feasible_positive count cap dates Hc Hf) as [Hcap Hm].
  unfold _generate_random_weekday_dates.
  destruct (Z.leb_spec count 0); [lia|].
  destruct allowed as [|a rest]; [contradiction|].
  unfold bind at 1. unfold lift at 1. rewrite Hsel.
  destruct (Z.ltb_spec (cap * len dates) count); [lia|].
  destruct (Z.leb_spec count (len dates)); [lia|].
  assert (Hmn : Z.to_nat (len dates) = length dates) by (unfold len; lia).
  destruct (allocate_extras_ok (_bell_weights (len dates)) cap
              (Z.to_nat (count - len dates)) (repeat 1 (Z.to_nat (len dates))) g)
    as (repeats & g' & Hrun & Hlen & Hall & Hsum).
  - rewrite bell_weights_length, repeat_length by lia. reflexivity.
  - apply Forall_forall. intros r Hr. apply repeat_spec in Hr. lia.
  - rewrite sum_list_repeat. unfold len at 3. rewrite repeat_length. lia.
  - unfold bind. rewrite Hrun. unfold ret. cbv beta iota zeta.
    rewrite sum_list_repeat in Hsum. rewrite repeat_length in Hlen.
    exists repeats, g'.
    assert (Hel : len (expand dates repeats) = sum_list repeats).
    { apply expand_length; [lia|]. eapply Forall_impl; [|exact Hall].
      intros x Hx; simpl in Hx; lia. }
    rewrite firstn_all2 by (unfold len in Hel; lia).
    split; [reflexivity|]. split; [lia|]. split; [exact Hall | lia].
Qed.

(** X9. At full capacity, [count = max_repeats_per_date * |pool|], the draw
    does not matter either: the output is every weekday of the range repeated
    [max_repeats_per_date] times, in ascending order. *)
Theorem generate_at_full_capacity (start_date end_date : date) (pool : list date)
    (cap : Z) (g : rng) :
  valid_range start_date end_date pool -> 1 <= cap ->
  exists g',
    _generate_random_weekday_dates (cap * len pool) start_date end_date pool cap g
      = (Ok (expand pool (repeat cap (length pool))), g').
Proof.
  intros Hr Hcap.
  destruct (valid_range_pool _ _ _ Hr) as (Hne & Hsel & Hs & _).
  assert (Hm : 1 <= len pool).
  { unfold len. destruct pool; [contradiction | simpl length; lia]. }
  destruct (Z.eq_dec cap 1) as [->|Hc1].
  - (* each weekday once *)
    rewrite Z.mul_1_l, expand_ones.
    assert (Hv : valid_input (len pool) start_date end_date pool 1).
    { constructor; try assumption; lia. }
    destruct (generate_valid _ _ _ _ _ g Hv) as (out & g' & Hrun & Hgen).
    exists g'. rewrite Hrun. f_equal. f_equal.
    apply strictly_sorted_ext.
    + apply (gen_distinct _ _ _ _ Hgen). lia.
    + exact Hs.
    + intros d. split; [apply Hgen|]. intros Hd.
      pose proof (gen_all _ _ _ _ Hgen ltac:(lia) d Hd) as Hocc. unfold occurrences in Hocc.
      apply (count_occ_In Z.eq_dec). lia.
  - destruct (generate_repeats (cap * len pool) start_date end_date pool pool cap g)
      as (repeats & g' & Hrun & Hlen & Hall & Hsum); try assumption; try nia.
    exists g'. rewrite Hrun. f_equal. f_equal. f_equal.
    rewrite <- Hlen. apply all_at_cap.
    + eapply Forall_impl; [|exact Hall]. intros a Ha; simpl in Ha; lia.
    + unfold len in *. rewrite Hlen. exact Hsum.
Qed.

Lemma generate_at_full_capacity_witness :
  valid_range (ymd 2026 1 5) (ymd 2026 1 9) week_2026_01_05 /\ 1 <= 3 /\
  exists g',
    _generate_random_weekday_dates (3 * len week_2026_01_05) (ymd 2026 1 5) (ymd 2026 1 9)
      week_2026_01_05 3 (tape_of [3; 1; 4; 1; 5; 9; 2; 6; 5; 3]%nat)
    = (Ok (expand week_2026_01_05 (repeat 3 (length week_2026_01_05))), g').
Proof.
  assert (Hr : valid_range (ymd 2026 1 5) (ymd 2026 1 9) week_2026_01_05)
    by (constructor; closed).
  assert (H1 : 1 <= 3) by lia.
  split; [exact Hr|]. split; [exact H1|].
  apply (generate_at_full_capacity _ _ _ _ _ Hr H1).
Defined.

(** ** The selection of the dates within the bounds *)









(** ** What [apply_invoice_and_expiration_dates] writes *)

Lemma add_days_weekday (d days r : Z) :
  _add_days_adjust_weekday d days = Ok r ->
  0 <= weekday r <= 4 /\ d + days <= r <= d + days + 2.
Proof.
  intros H. apply add_days_inv in H. destruct H as [_ ->].
  unfold weekday.
  repeat match goal with
         | |- context [?a =? ?b] => destruct (Z.eqb_spec a b)
         end; Z.to_euclidean_division_equations; lia.
Qed.

Lemma set_values_app (l1 l2 : list com_event) :
  set_values (l1 ++ l2) = set_values l1 ++ set_values l2.
Proof. unfold set_values. apply flat_map_app. Qed.

Lemma write_pages_set_values (config : InvoiceDatesConfig) (col first_row step : Z)
    (pages : list (nat * date)) :
  exists exps,
    (length exps <= length pages)%nat /\
    Forall2 (fun p e => _add_days_adjust_weekday (snd p) (expiration_days config) = Ok e)
            (firstn (length exps) pages) exps /\
    set_values (snd (write_pages config col first_row step pages)) =
      flat_map (page_cells col first_row step (expiration_row_offset config))
               (combine (firstn (length exps) pages) exps) /\
    (fst (write_pages config col first_row step pages) = Ok tt ->
     length exps = length pages).
Proof.
  induction pages as [|[page_index inv_date] rest (exps & Hlen & Hexp & Hset & Hok)].
  - exists []. simpl. repeat split; constructor.
  - simpl. destruct (_add_days_adjust_weekday inv_date (expiration_days config))
      as [exp_date|e] eqn:Hadd.
    + destruct (write_pages config col first_row step rest) as [r log]. simpl in *.
      exists (exp_date :: exps). simpl. split; [lia|]. split.
      * constructor; assumption.
      * split; [rewrite Hset; reflexivity|]. intros Hr. rewrite (Hok Hr). reflexivity.
    + exists []. simpl. repeat split; try constructor; try lia. discriminate.
Qed.

Section ApplyOutcome.

Variable abspath : string -> string.
Variable path_exists : string -> bool.

(** Either the call stops before any request to the spreadsheet host, or it
    opens a session, writes the pages of the generated dates for as long as
    the expiration dates can be computed, and closes the session. *)
Lemma apply_outcome (file_path : string) (total_pages : Z)
    (start_date end_date : date) (config : InvoiceDatesConfig)
    (sheet_index : Z) (visible : bool) (g : rng) :
  0 < total_pages ->
  let o := apply_invoice_and_expiration_dates abspath path_exists file_path total_pages
             start_date end_date config sheet_index visible g in
  let count := Z.min total_pages (max_pages config) in
  (com_log o = [] /\ exists e, returned o = Raise e) \/
  (exists (col first_row c2 second_row : Z) (pool invoice_dates : list date),
     _cell_to_col_row (first_page_invoice_cell config) = Ok (col, first_row) /\
     _cell_to_col_row (second_page_invoice_cell config) = Ok (c2, second_row) /\
     0 < second_row - first_row /\
     valid_range start_date end_date pool /\
     len invoice_dates = Z.max 0 count /\
     StronglySorted Z.le invoice_dates /\
     (forall d, In d invoice_dates -> In d pool) /\
     let w := write_pages config col first_row (second_row - first_row)
                (enumerate invoice_dates) in
     returned o = fst w /\
     com_log o =
       session_opening (abspath file_path) sheet_index visible ++ snd w ++
       (match fst w with Ok _ => [Save; PrintApplied count] | Raise _ => [] end) ++
       session_closing).
Proof.
  intros Htp. cbv zeta.
  set (count := Z.min total_pages (max_pages config)).
  unfold apply_invoice_and_expiration_dates. fold count.
  destruct (Z.leb_spec total_pages 0); [lia|].
  destruct ((5 <=? weekday start_date) || (5 <=? weekday end_date)) eqn:Hwd;
    [left; simpl; eauto|].
  apply orb_false_elim in Hwd. destruct Hwd as [Hws Hwe].
  apply Z.leb_gt in Hws, Hwe.
  destruct (Z.ltb_spec end_date start_date) as [Hlt|Hle]; [left; simpl; eauto|].
  destruct (negb (path_exists (abspath file_path))); [left; simpl; eauto|].
  destruct (_cell_to_col_row (first_page_invoice_cell config)) as [[col first_row]|e1];
    [|left; simpl; eauto].
  destruct (_cell_to_col_row (second_page_invoice_cell config)) as [[c2 second_row]|e2];
    [|left; simpl; eauto].
  destruct (Z.leb_spec (second_row - first_row) 0); [left; simpl; eauto|].
  destruct (_weekdays_in_range start_date end_date) as [[|a pool]|e3] eqn:Hpool;
    [left; simpl; eauto | | left; simpl; eauto].
  assert (Hr : valid_range start_date end_date (a :: pool)) by (constructor; assumption).
  destruct (valid_range_pool _ _ _ Hr) as (Hne & Hsel & Hl).
  assert (Hgen : (exists e g',
                    _generate_random_weekday_dates count start_date end_date (a :: pool) 3 g
                      = (Raise e, g')) \/
                 (exists out g',
                    _generate_random_weekday_dates count start_date end_date (a :: pool) 3 g
                      = (Ok out, g') /\
                    len out = Z.max 0 count /\ StronglySorted Z.le out /\
                    forall d, In d out -> In d (a :: pool))).
  { destruct (Z.le_gt_cases count 0) as [Hc0|Hc1].
    - right. exists [], g. rewrite generate_nonpositive by assumption.
      split; [reflexivity|]. split; [unfold len; simpl; lia|].
      split; [constructor | intros d []].
    - destruct (Z.lt_ge_cases (3 * len (a :: pool)) count) as [Hinf|Hfeas].
      + left. eexists. exists g. apply generate_infeasible; try eassumption; lia.
      + right.
        destruct (generate_valid count start_date end_date (a :: pool) 3 g)
          as (out & g' & Hrun & Hg); [constructor; (assumption || lia)|].
        exists out, g'. split; [exact Hrun|].
        split; [rewrite (gen_length _ _ _ _ Hg); lia|].
        split; [apply Hg | apply Hg]. }
  destruct Hgen as [(e & g' & Hrun)|(out & g' & Hrun & Hlen & Hsorted & Hfrom)];
    rewrite Hrun; [left; simpl; eauto|].
  right. exists col, first_row, c2, second_row, (a :: pool), out.
  repeat (split; [reflexivity || assumption || lia|]).
  cbv zeta.
  match goal with
  | |- context [write_pages ?c ?a ?b ?st ?ps] =>
      destruct (write_pages c a b st ps) as [[[]|e] written]
  end; split; reflexivity.
Qed.

End ApplyOutcome.

Lemma Forall2_combine_in {A B} (P : A -> B -> Prop) (l1 : list A) (l2 : list B) :
  Forall2 P l1 l2 -> forall a b, In (a, b) (combine l1 l2) -> P a b.
Proof.
  induction 1 as [|x y t u Hxy Htu IH]; intros a b Hin; simpl in Hin; [contradiction|].
  destruct Hin as [[= <- <-]|Hin]; [exact Hxy | apply IH; exact Hin].
Qed.

Lemma Forall2_enumerate_snd {A B} (Q : A -> B -> Prop) (l : list A) :
  forall (k : nat) (exps : list B),
    Forall2 (fun p e => Q (snd p) e) (combine (seq k (length l)) l) exps ->
    Forall2 Q l exps.
Proof.
  induction l as [|x t IH]; intros k exps H; simpl in H; inversion H; subst.
  - constructor.
  - constructor; [assumption | eapply IH; eassumption].
Qed.

Lemma in_firstn {A} (n : nat) (l : list A) (x : A) : In x (firstn n l) -> In x l.
Proof.
  intros H. rewrite <- (firstn_skipn n l). apply in_or_app. left. exact H.
Qed.

Lemma in_enumerate_snd {A} (l : list A) (k : nat) (x : A) :
  In (k, x) (enumerate l) -> In x l.
Proof. unfold enumerate. apply in_combine_r. Qed.


Lemma set_values_of_log (opening body tail closing : list com_event) :
  set_values opening = [] -> set_values tail = [] -> set_values closing = [] ->
  set_values (opening ++ body ++ tail ++ closing) = set_values body.
Proof.
  intros Ho Ht Hc. rewrite !set_values_app, Ho, Ht, Hc, app_nil_r. reflexivity.
Qed.

Section ApplyWrites.

Variable abspath : string -> string.
Variable path_exists : string -> bool.

(** X11. Written dates are weekdays only: whatever the arguments and the
    draw, and whether the call returns or raises, every value that
    [apply_invoice_and_expiration_dates] sets in the sheet, invoice date or
    expiration date, falls on Monday to Friday. *)
Theorem apply_writes_weekdays_only (file_path : string) (total_pages : Z)
    (start_date end_date : date) (config : InvoiceDatesConfig)
    (sheet_index : Z) (visible : bool) (g : rng) :
  Forall (fun cell : Z * Z * date => 0 <= weekday (snd cell) <= 4)
    (set_values (com_log
       (apply_invoice_and_expiration_dates abspath path_exists file_path total_pages
          start_date end_date config sheet_index visible g))).
Proof.
  destruct (Z.le_gt_cases total_pages 0) as [Hn|Hp].
  - rewrite apply_nonpositive by assumption. constructor.
  - destruct (apply_outcome abspath path_exists file_path total_pages start_date end_date
                config sheet_index visible g ltac:(lia))
      as [[Hlog _]|(col & first_row & c2 & second_row & pool & dates & _ & _ & _ & Hr &
                    _ & _ & Hfrom & _ & Hlog)].
    + rewrite Hlog. constructor.
    + rewrite Hlog. rewrite set_values_of_log;
        [|reflexivity | destruct (fst _); reflexivity | reflexivity].
      destruct (write_pages_set_values config col first_row (second_row - first_row)
                  (enumerate dates)) as (exps & _ & Hexp & -> & _).
      destruct (valid_range_pool _ _ _ Hr) as (_ & _ & _ & Hin).
      apply Forall_forall. intros cell Hcell.
      apply in_flat_map in Hcell. destruct Hcell as ([[k d] e] & Hp1 & Hp2).
      pose proof (Forall2_combine_in _ _ _ Hexp _ _ Hp1) as He. simpl in He.
      apply in_combine_l, in_firstn, in_enumerate_snd, Hfrom, Hin in Hp1.
      simpl in Hp2. destruct Hp2 as [<-|[<-|[]]]; simpl.
      * pose proof (weekday_range d). lia.
      * apply (add_days_weekday _ _ _ He).
Qed.


(** X13. When a call for at least one page returns normally (with a positive
    [max_pages]), page [k], counted from 0, carries its invoice date at row
    [first_row + k * stride] and its expiration date [expiration_row_offset]
    rows below, in the column of the first anchor; there are
    [min(total_pages, max_pages)] pages; the invoice dates are weekdays of
    [start_date .. end_date] that never go backwards from one page to the
    next, and each expiration date is what [_add_days_adjust_weekday] returns
    for the invoice date of its page. *)
Theorem apply_page_layout (file_path : string) (total_pages : Z)
    (start_date end_date : date) (config : InvoiceDatesConfig)
    (sheet_index : Z) (visible : bool) (g : rng) :
  0 < total_pages -> 0 < max_pages config ->
  let o := apply_invoice_and_expiration_dates abspath path_exists file_path total_pages
             start_date end_date config sheet_index visible g in
  returned o = Ok tt ->
  exists (col first_row c2 second_row : Z) (invoice_dates exp_dates : list date),
    _cell_to_col_row (first_page_invoice_cell config) = Ok (col, first_row) /\
    _cell_to_col_row (second_page_invoice_cell config) = Ok (c2, second_row) /\
    len invoice_dates = Z.min total_pages (max_pages config) /\
    StronglySorted Z.le invoice_dates /\
    Forall (fun d => start_date <= d <= end_date /\ 0 <= weekday d <= 4) invoice_dates /\
    Forall2 (fun d e => _add_days_adjust_weekday d (expiration_days config) = Ok e)
            invoice_dates exp_dates /\
    set_values (com_log o) =
      flat_map (page_cells col first_row (second_row - first_row)
                           (expiration_row_offset config))
               (combine (enumerate invoice_dates) exp_dates).
Proof.
  intros Htp Hmax. cbv zeta. intros Hok.
  destruct (apply_outcome abspath path_exists file_path total_pages start_date end_date
              config sheet_index visible g Htp)
    as [[_ (e & He)]|(col & first_row & c2 & second_row & pool & dates & Hc1 & Hc2 & _ & Hr &
                      Hlen & Hsorted & Hfrom & Hret & Hlog)]; [congruence|].
  cbv zeta in Hret, Hlog. rewrite Hret in Hok.
  destruct (write_pages_set_values config col first_row (second_row - first_row)
              (enumerate dates)) as (exps & _ & Hexp & Hset & Hfull).
  specialize (Hfull Hok). rewrite Hfull, firstn_all in Hexp, Hset.
  destruct (valid_range_pool _ _ _ Hr) as (_ & _ & _ & Hin).
  exists col, first_row, c2, second_row, dates, exps.
  split; [exact Hc1|]. split; [exact Hc2|]. split; [lia|]. split; [exact Hsorted|].
  split; [|split].
  - apply Forall_forall. intros d Hd. apply Hfrom, Hin in Hd.
    pose proof (weekday_range d). lia.
  - eapply Forall2_enumerate_snd. exact Hexp.
  - rewrite Hlog, set_values_of_log;
      [exact Hset | reflexivity | destruct (fst _); reflexivity | reflexivity].
Qed.

End ApplyWrites.

Lemma apply_page_layout_witness :
  0 < 3 /\ 0 < max_pages default_config /\
  let o := apply_invoice_and_expiration_dates (fun p => p) (fun _ => true) "invoices.xlsx" 3
             (ymd 2026 1 5) (ymd 2026 1 9) default_config 1 false (tape_of [0; 1; 2]%nat) in
  returned o = Ok tt /\
  exists (col first_row c2 second_row : Z) (invoice_dates exp_dates : list date),
    _cell_to_col_row (first_page_invoice_cell default_config) = Ok (col, first_row) /\
    _cell_to_col_row (second_page_invoice_cell default_config) = Ok (c2, second_row) /\
    len invoice_dates = Z.min 3 (max_pages default_config) /\
    StronglySorted Z.le invoice_dates /\
    Forall (fun d => ymd 2026 1 5 <= d <= ymd 2026 1 9 /\ 0 <= weekday d <= 4)
           invoice_dates /\
    Forall2 (fun d e => _add_days_adjust_weekday d (expiration_days default_config) = Ok e)
            invoice_dates exp_dates /\
    set_values (com_log o) =
      flat_map (page_cells col first_row (second_row - first_row)
                           (expiration_row_offset default_config))
               (combine (enumerate invoice_dates) exp_dates).
Proof.
  assert (H1 : 0 < 3) by lia.
  assert (H2 : 0 < max_pages default_config) by closed.
  assert (H3 : returned
                 (apply_invoice_and_expiration_dates (fun p => p) (fun _ => true)
                    "invoices.xlsx" 3 (ymd 2026 1 5) (ymd 2026 1 9) default_config 1 false
                    (tape_of [0; 1; 2]%nat)) = Ok tt) by (vm_compute; reflexivity).
  split; [exact H1|]. split; [exact H2|]. cbv zeta. split; [exact H3|].
  apply (apply_page_layout (fun p => p) (fun _ => true) "invoices.xlsx" 3
           (ymd 2026 1 5) (ymd 2026 1 9) default_config 1 false (tape_of [0; 1; 2]%nat)
           H1 H2 H3).
Defined.

Section ApplyInfeasible.

Variable abspath : string -> string.
Variable path_exists : string -> bool.

(** X14. When the pages to date, [min(total_pages, max_pages)], are more than
    three times the weekdays of the range, a call whose other arguments are
    in order (weekday bounds, existing file, well-formed anchors) raises the
    "Cannot assign" ValueError before the spreadsheet host is started:
    nothing is drawn and nothing is requested. *)
Theorem apply_too_many_pages (file_path : string) (total_pages : Z)
    (start_date end_date : date) (pool : list date) (config : InvoiceDatesConfig)
    (sheet_index : Z) (visible : bool) (g : rng) (col first_row c2 second_row : Z) :
  valid_range start_date end_date pool ->
  path_exists (abspath file_path) = true ->
  _cell_to_col_row (first_page_invoice_cell config) = Ok (col, first_row) ->
  _cell_to_col_row (second_page_invoice_cell config) = Ok (c2, second_row) ->
  first_row < second_row ->
  3 * len pool < Z.min total_pages (max_pages config) ->
  apply_invoice_and_expiration_dates abspath path_exists file_path total_pages
    start_date end_date config sheet_index visible g
  = {| returned := Raise (ValueError (CannotAssign (Z.min total_pages (max_pages config))
                                        3 (len pool) (3 * len pool)));
       rng_after := g;
       com_log := [] |}.
Proof.
  intros Hr Hfile Hc1 Hc2 Hstride Hmany.
  destruct (valid_range_pool _ _ _ Hr) as (Hne & Hsel & _).
  destruct Hr as [Hs He Ho Hp].
  assert (Hm : 0 <= len pool) by (unfold len; lia).
  unfold apply_invoice_and_expiration_dates.
  destruct (Z.leb_spec total_pages 0); [lia|].
  destruct (Z.leb_spec 5 (weekday start_date)); [lia|].
  destruct (Z.leb_spec 5 (weekday end_date)); [lia|]. simpl orb. cbv iota.
  destruct (Z.ltb_spec end_date start_date); [lia|].
  rewrite Hfile. simpl negb. cbv iota. rewrite Hc1, Hc2.
  destruct (Z.leb_spec (second_row - first_row) 0); [lia|].
  rewrite Hp. destruct pool as [|a pool]; [contradiction|].
  rewrite (generate_infeasible _ _ _ _ (a :: pool)) by (assumption || lia).
  reflexivity.
Qed.

End ApplyInfeasible.

Lemma apply_too_many_pages_witness :
  valid_range (ymd 2026 1 5) (ymd 2026 1 9) week_2026_01_05 /\
  (fun _ : string => true) ((fun p : string => p) "invoices.xlsx"%string) = true /\
  _cell_to_col_row (first_page_invoice_cell default_config) = Ok (11, 12) /\
  _cell_to_col_row (second_page_invoice_cell default_config) = Ok (11, 61) /\
  12 < 61 /\
  3 * len week_2026_01_05 < Z.min 16 (max_pages default_config) /\
  apply_invoice_and_expiration_dates (fun p => p) (fun _ => true) "invoices.xlsx" 16
    (ymd 2026 1 5) (ymd 2026 1 9) default_config 1 false (tape_of [])
  = {| returned := Raise (ValueError (CannotAssign (Z.min 16 (max_pages default_config))
                                        3 (len week_2026_01_05)
                                        (3 * len week_2026_01_05)));
       rng_after := tape_of [];
       com_log := [] |}.
Proof.
  assert (Hr : valid_range (ymd 2026 1 5) (ymd 2026 1 9) week_2026_01_05)
    by (constructor; closed).
  assert (Hf : (fun _ : string => true) ((fun p : string => p) "invoices.xlsx"%string) = true)
    by reflexivity.
  assert (Hc1 : _cell_to_col_row (first_page_invoice_cell default_config) = Ok (11, 12))
    by reflexivity.
  assert (Hc2 : _cell_to_col_row (second_page_invoice_cell default_config) = Ok (11, 61))
    by reflexivity.
  assert (Hs : 12 < 61) by lia.
  assert (Hm : 3 * len week_2026_01_05 < Z.min 16 (max_pages default_config)) by closed.
  repeat (split; [assumption|]).
  apply (apply_too_many_pages (fun p => p) (fun _ => true) "invoices.xlsx" 16
           (ymd 2026 1 5) (ymd 2026 1 9) week_2026_01_05 default_config 1 false
           (tape_of []) 11 12 11 61 Hr Hf Hc1 Hc2 Hs Hm).
Defined.

(** ** [_cell_to_col_row] *)





Lemma split_cell_inv (l : list ascii) :
  forall letters digits letters' digits',
    split_cell l letters digits = Ok (letters', digits') ->
    exists ls ds,
      l = ls ++ ds /\
      Forall (fun ch => is_letter ch = true) ls /\
      Forall (fun ch => is_digit ch = true) ds /\
      (digits <> [] -> ls = []) /\
      letters' = letters ++ ls /\ digits' = digits ++ ds.
Proof.
  induction l as [|ch t IH]; intros letters digits letters' digits' H; simpl in H.
  - injection H as <- <-. exists [], []. rewrite !app_nil_r.
    repeat split; constructor.
  - destruct (is_letter ch) eqn:El.
    + destruct digits as [|d0 digits]; [|discriminate].
      apply IH in H. destruct H as (ls & ds & -> & Hls & Hds & _ & -> & ->).
      exists (ch :: ls), ds. rewrite <- app_assoc.
      repeat split; try assumption; try reflexivity.
      * constructor; assumption.
      * intros Hn. contradiction.
    + destruct (is_digit ch) eqn:Ed; [|discriminate].
      apply IH in H. destruct H as (ls & ds & -> & Hls & Hds & Hnil & -> & ->).
      assert (ls = []) as -> by (apply Hnil; destruct digits; discriminate).
      exists [], (ch :: ds). rewrite <- app_assoc, !app_nil_r.
      repeat split; try reflexivity; try constructor; try assumption.
Qed.

Lemma cell_to_col_row_inv (cell : string) (col row : Z) :
  _cell_to_col_row cell = Ok (col, row) ->
  exists letters digits,
    normalized cell = letters ++ digits /\
    letters <> [] /\ Forall (fun ch => is_letter ch = true) letters /\
    digits <> [] /\ Forall (fun ch => is_digit ch = true) digits /\
    col = column_number letters /\ row = row_number digits /\ 0 < row.
Proof.
  unfold _cell_to_col_row. fold (normalized cell).
  intros H. destruct (normalized cell) as [|c0 rest] eqn:Hn; [discriminate|].
  destruct (split_cell (c0 :: rest) [] []) as [[letters digits]|e] eqn:Hs;
    simpl in H; [|discriminate].
  apply split_cell_inv in Hs.
  destruct Hs as (ls & ds & Heq & Hls & Hds & _ & -> & ->). simpl in H.
  destruct ls as [|l0 ls]; [discriminate|].
  destruct ds as [|d0 ds]; [discriminate|].
  fold (column_number (l0 :: ls)) in H. fold (row_number (d0 :: ds)) in H.
  destruct (Z.leb_spec (row_number (d0 :: ds)) 0); [discriminate|].
  injection H as <- <-. exists (l0 :: ls), (d0 :: ds).
  repeat split; try assumption; try discriminate.
Qed.



Lemma column_number_snoc (letters : list ascii) (ch : ascii) :
  column_number (letters ++ [ch]) =
  column_number letters * 26 + (Z.of_nat (nat_of_ascii ch) - 64).
Proof. unfold column_number. rewrite fold_left_app. simpl. lia. Qed.

Lemma letter_value (ch : ascii) :
  is_letter ch = true -> 1 <= Z.of_nat (nat_of_ascii ch) - 64 <= 26.
Proof.
  unfold is_letter. intros H. apply andb_true_iff in H. destruct H as [H1 H2].
  apply Nat.leb_le in H1, H2. lia.
Qed.

Lemma column_number_nonneg (letters : list ascii) :
  Forall (fun ch => is_letter ch = true) letters ->
  0 <= column_number letters /\ (letters <> [] -> 1 <= column_number letters).
Proof.
  induction letters as [|ch t IH] using rev_ind; intros Hall.
  - split; [reflexivity | contradiction].
  - apply Forall_app in Hall. destruct Hall as [Ht Hch].
    inversion Hch as [|? ? Hc _]; subst. apply letter_value in Hc.
    destruct (IH Ht) as [IH0 _]. rewrite column_number_snoc. lia.
Qed.

(** X16. Different column names are different columns: on runs of letters A
    to Z the column number is injective. *)
Theorem column_number_injective (l1 l2 : list ascii) :
  Forall (fun ch => is_letter ch = true) l1 ->
  Forall (fun ch => is_letter ch = true) l2 ->
  column_number l1 = column_number l2 -> l1 = l2.
Proof.
  revert l2. induction l1 as [|c1 t1 IH] using rev_ind; intros l2 H1 H2 Heq.
  - destruct l2 as [|c2 t2] using rev_ind; [reflexivity|]. exfalso.
    apply Forall_app in H2. destruct H2 as [Ht2 Hc2].
    inversion Hc2 as [|? ? Hc _]; subst. apply letter_value in Hc.
    destruct (column_number_nonneg t2 Ht2) as [H0 _].
    rewrite column_number_snoc in Heq. change (column_number []) with 0 in Heq. lia.
  - apply Forall_app in H1. destruct H1 as [Ht1 Hc1].
    inversion Hc1 as [|? ? Hv1 _]; subst. pose proof (letter_value _ Hv1) as Hr1.
    destruct (column_number_nonneg t1 Ht1) as [Hn1 _].
    destruct l2 as [|c2 t2 _] using rev_ind.
    + exfalso. rewrite column_number_snoc in Heq.
      change (column_number []) with 0 in Heq. lia.
    + apply Forall_app in H2. destruct H2 as [Ht2 Hc2].
      inversion Hc2 as [|? ? Hv2 _]; subst. pose proof (letter_value _ Hv2) as Hr2.
      destruct (column_number_nonneg t2 Ht2) as [Hn2 _].
      rewrite !column_number_snoc in Heq.
      assert (Hv : Z.of_nat (nat_of_ascii c1) = Z.of_nat (nat_of_ascii c2)) by lia.
      assert (Hc : c1 = c2).
      { apply Nat2Z.inj in Hv. rewrite <- (ascii_nat_embedding c1), <- (ascii_nat_embedding c2).
        congruence. }
      subst c2. f_equal. apply IH; try assumption. lia.
Qed.

Lemma column_number_injective_witness :
  Forall (fun ch => is_letter ch = true) (list_ascii_of_string "AZ") /\
  Forall (fun ch => is_letter ch = true) (list_ascii_of_string "AZ") /\
  column_number (list_ascii_of_string "AZ") = column_number (list_ascii_of_string "AZ") /\
  list_ascii_of_string "AZ" = list_ascii_of_string "AZ".
Proof.
  assert (H1 : Forall (fun ch => is_letter ch = true) (list_ascii_of_string "AZ"))
    by (repeat constructor).
  assert (H2 : column_number (list_ascii_of_string "AZ")
               = column_number (list_ascii_of_string "AZ")) by reflexivity.
  split; [exact H1|]. split; [exact H1|]. split; [exact H2|].
  apply (column_number_injective _ _ H1 H1 H2).
Defined.

Lemma upper_char_space (c : ascii) : is_space (upper_char c) = is_space c.
Proof. destruct c as [[] [] [] [] [] [] [] []]; reflexivity. Qed.

Lemma upper_char_idem (c : ascii) : upper_char (upper_char c) = upper_char c.
Proof. destruct c as [[] [] [] [] [] [] [] []]; reflexivity. Qed.

Lemma lstrip_upper (l : list ascii) : lstrip (map upper_char l) = map upper_char (lstrip l).
Proof.
  induction l as [|c t IH]; simpl; [reflexivity|].
  rewrite upper_char_space. destruct (is_space c); [exact IH | reflexivity].
Qed.

Lemma strip_upper (l : list ascii) : strip (map upper_char l) = map upper_char (strip l).
Proof. unfold strip. rewrite lstrip_upper, <- map_rev, lstrip_upper, <- map_rev. reflexivity. Qed.

Lemma lstrip_spaces_app (ws l : list ascii) :
  Forall (fun c => is_space c = true) ws -> lstrip (ws ++ l) = lstrip l.
Proof. induction 1 as [|c t Hc Ht IH]; simpl; [reflexivity|]. rewrite Hc. exact IH. Qed.

Lemma lstrip_app_spaces (l ws : list ascii) :
  Forall (fun c => is_space c = true) ws ->
  lstrip (rev (lstrip (l ++ ws))) = lstrip (rev (lstrip l)).
Proof.
  intros Hws. induction l as [|c t IH]; simpl.
  - rewrite <- (app_nil_r ws), lstrip_spaces_app by assumption. reflexivity.
  - destruct (is_space c); [exact IH|].
    change (c :: t ++ ws) with ((c :: t) ++ ws).
    rewrite rev_app_distr. apply lstrip_spaces_app.
    apply Forall_rev. exact Hws.
Qed.

Lemma strip_padding (ws1 l ws2 : list ascii) :
  Forall (fun c => is_space c = true) ws1 ->
  Forall (fun c => is_space c = true) ws2 ->
  strip (ws1 ++ l ++ ws2) = strip l.
Proof.
  intros H1 H2. unfold strip.
  rewrite lstrip_spaces_app by assumption.
  rewrite lstrip_app_spaces by assumption. reflexivity.
Qed.

(** X17. Letter case and surrounding white space do not matter to
    [_cell_to_col_row]: a reference written in capitals and padded with
    blanks gives the same column and row, or the same error, as the
    reference itself. *)
Theorem cell_to_col_row_insensitive (cell : string) (ws1 ws2 : list ascii) :
  Forall (fun c => is_space c = true) ws1 ->
  Forall (fun c => is_space c = true) ws2 ->
  _cell_to_col_row
    (string_of_list_ascii (ws1 ++ map upper_char (list_ascii_of_string cell) ++ ws2))
  = _cell_to_col_row cell.
Proof.
  intros H1 H2. unfold _cell_to_col_row.
  rewrite list_ascii_of_string_of_list_ascii, strip_padding by assumption.
  rewrite strip_upper, map_map.
  rewrite (map_ext (fun c => upper_char (upper_char c)) upper_char upper_char_idem).
  reflexivity.
Qed.

Lemma cell_to_col_row_insensitive_witness :
  Forall (fun c => is_space c = true) (list_ascii_of_string " ") /\
  Forall (fun c => is_space c = true) (list_ascii_of_string "  ") /\
  _cell_to_col_row
    (string_of_list_ascii (list_ascii_of_string " "
                           ++ map upper_char (list_ascii_of_string "k12")
                           ++ list_ascii_of_string "  "))
  = _cell_to_col_row "k12".
Proof.
  assert (H1 : Forall (fun c => is_space c = true) (list_ascii_of_string " "))
    by (repeat constructor).
  assert (H2 : Forall (fun c => is_space c = true) (list_ascii_of_string "  "))
    by (repeat constructor).
  split; [exact H1|]. split; [exact H2|].
  apply (cell_to_col_row_insensitive "k12" _ _ H1 H2).
Defined.

(** * Properties of the numbering modules *)

Lemma range_length (n : Z) : len (range n) = Z.max 0 n.
Proof. unfold range, len. rewrite length_map, length_seq. lia. Qed.

Lemma cell_values_app (l1 l2 : list sheet_event) :
  cell_values (l1 ++ l2) = cell_values l1 ++ cell_values l2.
Proof. unfold cell_values. apply flat_map_app. Qed.

Lemma page_anchor_stride (first_page_cell second_page_cell : string) (col first_row step : Z) :
  page_anchor first_page_cell second_page_cell = Returns (col, first_row, step) ->
  1 <= col /\ 1 <= first_row /\ 0 < step.
Proof.
  unfold page_anchor.
  destruct (_cell_to_col_row first_page_cell) as [[c1 r1]|e1] eqn:H1; [|discriminate].
  destruct (_cell_to_col_row second_page_cell) as [[c2 r2]|e2] eqn:H2; [|discriminate].
  destruct (Z.leb_spec (r2 - r1) 0); [discriminate|].
  intros [= <- <- <-].
  apply cell_to_col_row_inv in H1.
  destruct H1 as (letters & digits & _ & Hl & Hls & _ & _ & -> & -> & Hrow).
  destruct (column_number_nonneg letters Hls) as [_ Hcol].
  split; [apply Hcol; exact Hl|]. lia.
Qed.


Lemma cell_values_between (opening body tail closing : list sheet_event) :
  cell_values opening = [] -> cell_values tail = [] -> cell_values closing = [] ->
  cell_values (opening ++ body ++ tail ++ closing) = cell_values body.
Proof.
  intros Ho Ht Hc. rewrite !cell_values_app, Ho, Ht, Hc, app_nil_r. reflexivity.
Qed.

Section InvoiceNumbersFacts.

Variable abspath : string -> string.
Variable path_exists : string -> bool.


End InvoiceNumbersFacts.


(** ** [apply_control_numbers] *)

Lemma randint_ok (a b : Z) (g : rng) :
  a <= b ->
  exists jump g', randint a b g = (Returns jump, g') /\ a <= jump <= b.
Proof.
  intros Hab. unfold randint, randbelow.
  destruct (Z.ltb_spec b a); [lia|].
  eexists. eexists. split; [reflexivity|].
  assert (Hlt : (g 0%nat mod Z.to_nat (b - a + 1) < Z.to_nat (b - a + 1))%nat)
    by (apply Nat.mod_upper_bound; lia).
  lia.
Qed.

Lemma control_pages_values (col first_row step min_jump max_jump : Z) :
  0 < min_jump -> min_jump <= max_jump ->
  forall (pages : list Z) (current : Z) (g : rng),
    current <= 999999 ->
    let vals := control_values
                  (snd (control_pages col first_row step min_jump max_jump pages current g)) in
    Forall (fun v => current <= v <= 999999) vals /\
    jumps_within min_jump max_jump vals /\
    (forall v, hd_error vals = Some v -> v = current) /\
    (length vals <= length pages)%nat.
Proof.
  intros Hmin Hmax. induction pages as [|p rest IH]; intros current g Hc; cbv zeta.
  - simpl. repeat split; try constructor. discriminate.
  - simpl. destruct (randint_ok min_jump max_jump g Hmax) as (jump & g' & -> & Hj).
    destruct (Z.ltb_spec 999999 (current + jump)) as [Hex|Hin].
    + change (control_values _) with [current].
      split; [constructor; [lia | constructor]|].
      split; [simpl; tauto|]. split; [|simpl; lia].
      intros v [= <-]. reflexivity.
    + specialize (IH (current + jump) g' Hin). cbv zeta in IH.
      destruct (control_pages col first_row step min_jump max_jump rest (current + jump) g')
        as [[r g''] log]. simpl snd in IH |- *.
      change (control_values _)
        with (current :: control_values log).
      destruct IH as (Hall & Hjumps & Hhd & Hlen).
      split; [|split; [|split]].
      * constructor; [lia|]. eapply Forall_impl; [|exact Hall].
        intros v Hv; simpl in Hv; lia.
      * simpl. split; [|exact Hjumps].
        destruct (control_values log) as [|v vs]; [exact I|].
        rewrite (Hhd v eq_refl). lia.
      * intros v [= <-]. reflexivity.
      * simpl. lia.
Qed.





Lemma control_values_between (opening body tail closing : list sheet_event) :
  cell_values opening = [] -> cell_values tail = [] -> cell_values closing = [] ->
  control_values (opening ++ body ++ tail ++ closing) = control_values body.
Proof.
  intros Ho Ht Hc. unfold control_values. rewrite cell_values_between by assumption.
  reflexivity.
Qed.

Section ControlNumbersFacts.

Variable abspath : string -> string.
Variable path_exists : string -> bool.

(** X19. Whatever the arguments and the draws, and whether the call returns
    or raises, every control number that [apply_control_numbers] writes fits
    in six digits and is at least [start_number]; from one page to the next
    the number grows by a jump within [min_jump .. max_jump]; and at most
    [min(total_pages, max_pages)] pages are numbered. *)
Theorem apply_control_numbers_six_digits (file_path : string)
    (start_number total_pages : Z) (first_page_cell second_page_cell : string)
    (sheet_index : Z) (visible : bool) (max_pages min_jump max_jump : Z) (g : rng) :
  let vals := control_values (control_requests
                (apply_control_numbers abspath path_exists file_path start_number
                   total_pages first_page_cell second_page_cell sheet_index visible
                   max_pages min_jump max_jump g)) in
  Forall (fun v => 0 <= v <= 999999 /\ start_number <= v) vals /\
  jumps_within min_jump max_jump vals /\
  len vals <= Z.max 0 (Z.min total_pages max_pages).
Proof.
  cbv zeta. unfold apply_control_numbers.
  assert (Hnil : Forall (fun v => 0 <= v <= 999999 /\ start_number <= v) (control_values []) /\
                 jumps_within min_jump max_jump (control_values []) /\
                 len (control_values []) <= Z.max 0 (Z.min total_pages max_pages)).
  { split; [constructor|]. split; [exact I|]. unfold len. simpl. lia. }
  destruct (Z.ltb_spec start_number 0); [exact Hnil|].
  destruct (Z.leb_spec 0 start_number); [|lia].
  destruct (Z.leb_spec start_number 999999); [|exact Hnil]. simpl negb. cbv iota.
  destruct (Z.leb_spec total_pages 0); [exact Hnil|].
  destruct (Z.leb_spec min_jump 0); [exact Hnil|].
  destruct (Z.ltb_spec max_jump min_jump); [exact Hnil|]. simpl orb. cbv iota.
  destruct (negb (path_exists (abspath file_path))); [exact Hnil|].
  destruct (page_anchor first_page_cell second_page_cell) as [[[col first_row] step]|e];
    [|exact Hnil].
  pose proof (control_pages_values col first_row step min_jump max_jump
                ltac:(lia) ltac:(lia) (range (Z.min total_pages max_pages)) start_number g
                ltac:(lia)) as Hv.
  cbv zeta in Hv.
  destruct (control_pages col first_row step min_jump max_jump
              (range (Z.min total_pages max_pages)) start_number g) as [[r g'] written].
  cbn [control_requests]. simpl snd in Hv.
  rewrite control_values_between;
    [|reflexivity | destruct r; reflexivity | reflexivity].
  destruct Hv as (Hall & Hjumps & _ & Hlen).
  split; [|split; [exact Hjumps|]].
  - eapply Forall_impl; [|exact Hall]. intros v Hv; simpl in Hv; lia.
  - pose proof (range_length (Z.min total_pages max_pages)) as Hr.
    unfold len in *. lia.
Qed.



End ControlNumbersFacts.



Example control_numbers_of_three_pages :
  control_values (control_requests
    (apply_control_numbers (fun p => p) (fun _ => true) "invoices.xlsx" 968 3
       "K6" "K55" 1 false 50 1 11 (tape_of [4; 0; 10]%nat)))
  = [968; 973; 974].
Proof. vm_compute. reflexivity. Qed.

(** * Properties of [main.py] *)

(** X22. For a positive [items_per_page], [_compute_total_pages] is the
    number of pages that [num_items] items fill, the last one possibly in
    part: the least [k] with [num_items <= k * items_per_page].  No item
    means no page. *)
Theorem compute_total_pages_ceiling (num_items items_per_page : Z) :
  0 < items_per_page ->
  exists pages,
    _compute_total_pages num_items items_per_page = Some pages /\
    (pages - 1) * items_per_page < num_items <= pages * items_per_page /\
    (num_items = 0 -> pages = 0).
Proof.
  intros Hp. unfold _compute_total_pages.
  destruct (Z.eqb_spec items_per_page 0); [lia|].
  eexists. split; [reflexivity|].
  pose proof (Z.div_mod (num_items + items_per_page - 1) items_per_page ltac:(lia)) as Hdm.
  pose proof (Z.mod_pos_bound (num_items + items_per_page - 1) items_per_page Hp) as Hm.
  set (q := (num_items + items_per_page - 1) / items_per_page) in *.
  set (r := (num_items + items_per_page - 1) mod items_per_page) in *.
  split; [nia|]. intros H0. nia.
Qed.

Lemma compute_total_pages_ceiling_witness :
  0 < ITEMS_PER_PAGE /\
  exists pages,
    _compute_total_pages 19 ITEMS_PER_PAGE = Some pages /\
    (pages - 1) * ITEMS_PER_PAGE < 19 <= pages * ITEMS_PER_PAGE /\
    (19 = 0 -> pages = 0).
Proof.
  assert (H1 : 0 < ITEMS_PER_PAGE) by closed.
  split; [exact H1 | apply (compute_total_pages_ceiling 19 _ H1)].
Defined.

(** * Properties of [invoicing.py] *)


Section ProductsFacts.

Variable value : Type.
Variable text : string -> value.
Variable to_str : value -> string.



Variable abspath : string -> string.
Variable path_exists : string -> bool.


End ProductsFacts.


(** * Properties of [prompts.py] *)

Lemma days_before_month_values (y m : Z) :
  1 <= m <= 12 ->
  days_before_month y m =
    nth (Z.to_nat (m - 1))
        [0; 31; 59; 90; 120; 151; 181; 212; 243; 273; 304; 334] 0
    + (if (3 <=? m) && is_leap y then 1 else 0).
Proof.
  intros Hm.
  assert (Hc : m = 1 \/ m = 2 \/ m = 3 \/ m = 4 \/ m = 5 \/ m = 6 \/ m = 7 \/ m = 8 \/
               m = 9 \/ m = 10 \/ m = 11 \/ m = 12) by lia.
  unfold days_before_month, days_in_month.
  repeat (destruct Hc as [->|Hc]; [simpl; destruct (is_leap y); reflexivity|]).
  subst m. simpl. destruct (is_leap y); reflexivity.
Qed.

Lemma days_in_month_le (y m : Z) : 28 <= days_in_month y m <= 31.
Proof.
  unfold days_in_month.
  destruct (m =? 2); [destruct (is_leap y); lia|].
  destruct ((m =? 4) || (m =? 6) || (m =? 9) || (m =? 11)); lia.
Qed.

(** A year, a month and a day of the calendar make a date of
    [date.min .. date.max]. *)
Lemma ymd_is_date (y m d : Z) :
  1 <= y <= 9999 -> 1 <= m <= 12 -> 1 <= d <= days_in_month y m ->
  is_date (ymd y m d).
Proof.
  intros Hy Hm Hd. unfold is_date, MINORD, MAXORD, ymd.
  rewrite days_before_month_values by assumption.
  assert (Hleap : is_leap y = true -> y <= 9996).
  { unfold is_leap. intros H. apply andb_true_iff in H. destruct H as [H _].
    apply Z.eqb_eq in H. Z.to_euclidean_division_equations. lia. }
  assert (Hyear : 0 <= days_before_year y /\
                  days_before_year y <= 3651694 /\
                  (y <= 9996 -> days_before_year y <= 3650598)).
  { unfold days_before_year. cbv zeta. Z.to_euclidean_division_equations. lia. }
  assert (Hc : m = 1 \/ m = 2 \/ m = 3 \/ m = 4 \/ m = 5 \/ m = 6 \/ m = 7 \/ m = 8 \/
               m = 9 \/ m = 10 \/ m = 11 \/ m = 12) by lia.
  unfold days_in_month in Hd.
  repeat (destruct Hc as [->|Hc];
          [simpl in Hd |- *; destruct (is_leap y); simpl in Hd |- *;
           try specialize (Hleap eq_refl); lia|]).
  subst m. simpl in Hd |- *. destruct (is_leap y); simpl in Hd |- *;
    try specialize (Hleap eq_refl); lia.
Qed.

Lemma make_date_inv (y m d : Z) (parsed : date) :
  make_date y m d = Date parsed ->
  1 <= y <= 9999 /\ 1 <= m <= 12 /\ 1 <= d <= days_in_month y m /\ parsed = ymd y m d.
Proof.
  unfold make_date.
  destruct (negb (in_c_int y && in_c_int m && in_c_int d)); [discriminate|].
  destruct (Z.leb_spec 1 y); [|discriminate].
  destruct (Z.leb_spec y 9999); [|discriminate].
  destruct (Z.leb_spec 1 m); [|discriminate].
  destruct (Z.leb_spec m 12); [|discriminate].
  destruct (Z.leb_spec 1 d); [|discriminate].
  destruct (Z.leb_spec d (days_in_month y m)); [|discriminate].
  simpl. intros [= <-]. repeat split; assumption.
Qed.

Lemma make_date_calendar (y m d : Z) :
  1 <= y <= 9999 -> 1 <= m <= 12 -> 1 <= d <= days_in_month y m ->
  make_date y m d = Date (ymd y m d).
Proof.
  intros Hy Hm Hd. pose proof (days_in_month_le y m) as Hdim. unfold make_date, in_c_int.
  repeat match goal with
         | |- context [?a <=? ?b] => destruct (Z.leb_spec a b); [|lia]
         end.
  reflexivity.
Qed.

Section PromptsFacts.

Variable py_int : list ascii -> option Z.

(** X24. [_prompt_invoice_start] returns positive integers only: it rejects
    every line that [int] refuses or reads as zero or less, returns the
    number of the first other line, leaving the lines after it unread, and
    raises EOFError when the input ends before such a line. *)
Theorem prompt_invoice_start_positive (stdin : list string) :
  let rejected line := forall v, py_int (input_stripped line) = Some v -> v <= 0 in
  let p := _prompt_invoice_start py_int stdin in
  match answer p with
  | Returns value =>
      0 < value /\
      exists skipped line,
        stdin = skipped ++ line :: unread p /\
        py_int (input_stripped line) = Some value /\
        Forall rejected skipped
  | Raises e => e = EOFError /\ unread p = [] /\ Forall rejected stdin
  end.
Proof.
  cbv zeta. induction stdin as [|line rest IH]; simpl.
  - repeat split. constructor.
  - destruct (py_int (input_stripped line)) as [value|] eqn:Hint.
    + destruct (Z.leb_spec value 0) as [Hle|Hgt].
      * unfold after. simpl.
        destruct (answer (_prompt_invoice_start py_int rest)) as [v|e].
        -- destruct IH as (Hv & skipped & l & Hs & Hl & Hrej).
           split; [exact Hv|]. exists (line :: skipped), l.
           split; [simpl; f_equal; exact Hs|]. split; [exact Hl|].
           constructor; [|exact Hrej]. intros v' Hv'. rewrite Hint in Hv'.
           injection Hv' as <-. exact Hle.
        -- destruct IH as (He & Hu & Hrej). repeat split; try assumption.
           constructor; [|exact Hrej]. intros v' Hv'. rewrite Hint in Hv'.
           injection Hv' as <-. exact Hle.
      * simpl. split; [exact Hgt|]. exists [], line. repeat split; try assumption.
        constructor.
    + unfold after. simpl.
      destruct (answer (_prompt_invoice_start py_int rest)) as [v|e].
      * destruct IH as (Hv & skipped & l & Hs & Hl & Hrej).
        split; [exact Hv|]. exists (line :: skipped), l.
        split; [simpl; f_equal; exact Hs|]. split; [exact Hl|].
        constructor; [|exact Hrej]. intros v' Hv'. rewrite Hint in Hv'. discriminate.
      * destruct IH as (He & Hu & Hrej). repeat split; try assumption.
        constructor; [|exact Hrej]. intros v' Hv'. rewrite Hint in Hv'. discriminate.
Qed.


Lemma parse_ddmmyyyy_inv (raw : list ascii) (parsed : date) :
  _parse_ddmmyyyy py_int raw = Returns (Some parsed) ->
  exists p0 p1 p2 d m y,
    split_on "/" raw = [p0; p1; p2] /\
    py_int p0 = Some d /\ py_int p1 = Some m /\ py_int p2 = Some y /\
    1 <= y <= 9999 /\ 1 <= m <= 12 /\ 1 <= d <= days_in_month y m /\
    parsed = ymd y m d.
Proof.
  unfold _parse_ddmmyyyy.
  destruct (split_on "/" raw) as [|p0 [|p1 [|p2 [|p3 ps]]]] eqn:Hs; try discriminate.
  destruct (py_int p0) as [d|] eqn:H0; [|discriminate].
  destruct (py_int p1) as [m|] eqn:H1; [|discriminate].
  destruct (py_int p2) as [y|] eqn:H2; [|discriminate].
  destruct (make_date y m d) as [dt| |] eqn:Hmk; try discriminate.
  intros [= <-]. apply make_date_inv in Hmk.
  destruct Hmk as (Hy & Hm & Hd & ->).
  exists p0, p1, p2, d, m, y. repeat split; try assumption; try reflexivity; lia.
Qed.

(** X26. [_parse_ddmmyyyy] returns a date exactly for three parts separated
    by "/" that [int] reads as a day, a month and a year of the calendar
    (year 1 to 9999, month 1 to 12, day within the month); the date returned
    is that day, within [date.min .. date.max]. *)
Theorem parse_ddmmyyyy_valid (raw : list ascii) (parsed : date) :
  _parse_ddmmyyyy py_int raw = Returns (Some parsed) <->
  exists p0 p1 p2 d m y,
    split_on "/" raw = [p0; p1; p2] /\
    py_int p0 = Some d /\ py_int p1 = Some m /\ py_int p2 = Some y /\
    1 <= y <= 9999 /\ 1 <= m <= 12 /\ 1 <= d <= days_in_month y m /\
    parsed = ymd y m d /\ is_date parsed.
Proof.
  split.
  - intros H. apply parse_ddmmyyyy_inv in H.
    destruct H as (p0 & p1 & p2 & d & m & y & Hs & H0 & H1 & H2 & Hy & Hm & Hd & ->).
    exists p0, p1, p2, d, m, y.
    split; [exact Hs|]. split; [exact H0|]. split; [exact H1|]. split; [exact H2|].
    split; [exact Hy|]. split; [exact Hm|]. split; [exact Hd|].
    split; [reflexivity|]. apply ymd_is_date; assumption.
  - intros (p0 & p1 & p2 & d & m & y & Hs & H0 & H1 & H2 & Hy & Hm & Hd & -> & _).
    unfold _parse_ddmmyyyy. rewrite Hs, H0, H1, H2.
    rewrite make_date_calendar by assumption. reflexivity.
Qed.

(** X27. [_parse_ddmmyyyy] does not always return: when [int] reads the
    three parts and one of the integers is outside the range of a C [int],
    [date] raises OverflowError, which [except ValueError] lets through.
    It raises in no other case and nothing else. *)
Theorem parse_ddmmyyyy_overflow (raw : list ascii) (e : raised) :
  _parse_ddmmyyyy py_int raw = Raises e <->
  e = Inherited OverflowError /\
  exists p0 p1 p2 d m y,
    split_on "/" raw = [p0; p1; p2] /\
    py_int p0 = Some d /\ py_int p1 = Some m /\ py_int p2 = Some y /\
    in_c_int y && in_c_int m && in_c_int d = false.
Proof.
  unfold _parse_ddmmyyyy. split.
  - destruct (split_on "/" raw) as [|p0 [|p1 [|p2 [|p3 ps]]]] eqn:Hs; try discriminate.
    destruct (py_int p0) as [d|] eqn:H0; [|discriminate].
    destruct (py_int p1) as [m|] eqn:H1; [|discriminate].
    destruct (py_int p2) as [y|] eqn:H2; [|discriminate].
    unfold make_date.
    destruct (in_c_int y && in_c_int m && in_c_int d) eqn:Hc; simpl.
    + destruct ((1 <=? y) && (y <=? 9999) && (1 <=? m) && (m <=? 12) && (1 <=? d)
                && (d <=? days_in_month y m)); discriminate.
    + intros [= <-]. split; [reflexivity|].
      exists p0, p1, p2, d, m, y. repeat split; assumption.
  - intros (-> & p0 & p1 & p2 & d & m & y & Hs & H0 & H1 & H2 & Hc).
    rewrite Hs, H0, H1, H2. unfold make_date. rewrite Hc. reflexivity.
Qed.

Lemma parse_ddmmyyyy_raises (raw : list ascii) (e : raised) :
  _parse_ddmmyyyy py_int raw = Raises e -> e = Inherited OverflowError.
Proof.
  unfold _parse_ddmmyyyy.
  destruct (split_on "/" raw) as [|p0 [|p1 [|p2 [|p3 ps]]]]; try discriminate.
  destruct (py_int p0); [|discriminate].
  destruct (py_int p1); [|discriminate].
  destruct (py_int p2); [|discriminate].
  destruct (make_date _ _ _); try discriminate.
  intros [= <-]. reflexivity.
Qed.

Lemma prompt_weekday_date_returns (prompt : string) (stdin : list string) (d : date) :
  answer (_prompt_weekday_date py_int prompt stdin) = Returns d ->
  is_date d /\ 0 <= weekday d <= 4.
Proof.
  induction stdin as [|line rest IH]; simpl; [discriminate|].
  destruct (_parse_ddmmyyyy py_int (input_stripped line)) as [[parsed|]|e] eqn:Hp.
  - destruct (Z.leb_spec 5 (weekday parsed)) as [Hwe|Hwd].
    + unfold after. simpl. exact IH.
    + simpl. intros [= <-]. apply parse_ddmmyyyy_inv in Hp.
      destruct Hp as (p0 & p1 & p2 & dd & m & y & _ & _ & _ & _ & Hy & Hm & Hd & ->).
      pose proof (weekday_range (ymd y m dd)).
      split; [apply ymd_is_date; assumption | lia].
  - unfold after. simpl. exact IH.
  - discriminate.
Qed.

Lemma prompt_weekday_date_raises (prompt : string) (stdin : list string) (e : raised) :
  answer (_prompt_weekday_date py_int prompt stdin) = Raises e ->
  e = EOFError \/ e = Inherited OverflowError.
Proof.
  induction stdin as [|line rest IH]; simpl; [intros [= <-]; left; reflexivity|].
  destruct (_parse_ddmmyyyy py_int (input_stripped line)) as [[parsed|]|e'] eqn:Hp.
  - destruct (5 <=? weekday parsed); [exact IH | discriminate].
  - exact IH.
  - simpl. intros [= <-]. right. exact (parse_ddmmyyyy_raises _ _ Hp).
Qed.

Lemma date_range_returns (stdin : list string) (r : DateRange) :
  answer (prompt_invoice_date_range py_int stdin) = Returns r ->
  is_date (range_from r) /\ is_date (range_to r) /\
  0 <= weekday (range_from r) <= 4 /\ 0 <= weekday (range_to r) <= 4 /\
  range_from r <= range_to r.
Proof.
  funelim (prompt_invoice_date_range py_int stdin).
  - discriminate.
  - pose proof (prompt_weekday_date_returns "Start date (DD/MM/YYYY): " stdin start) as Hs.
    rewrite H1 in Hs. specialize (Hs eq_refl). destruct Hs as (Hs1 & Hs2).
    pose proof (prompt_weekday_date_returns "End date (DD/MM/YYYY): " rest1 end_) as He.
    rewrite H2 in He. specialize (He eq_refl). destruct He as (He1 & He2).
    destruct (Z.ltb_spec end_ start).
    + unfold after. simpl. apply H.
    + simpl. intros [= <-]. simpl.
      split; [exact Hs1|]. split; [exact He1|]. split; [exact Hs2|].
      split; [exact He2|]. lia.
  - discriminate.
Qed.

Lemma date_range_raises (stdin : list string) (e : raised) :
  answer (prompt_invoice_date_range py_int stdin) = Raises e ->
  e = EOFError \/ e = Inherited OverflowError.
Proof.
  funelim (prompt_invoice_date_range py_int stdin).
  - simpl. intros [= <-].
    apply (prompt_weekday_date_raises "Start date (DD/MM/YYYY): " stdin).
    match goal with H : _prompt_weekday_date _ _ _ = _ |- _ => rewrite H end. reflexivity.
  - destruct (end_ <? start).
    + unfold after. simpl. apply H.
    + discriminate.
  - simpl. intros [= <-].
    apply (prompt_weekday_date_raises "End date (DD/MM/YYYY): " rest1).
    match goal with H : _prompt_weekday_date _ _ rest1 = _ |- _ => rewrite H end. reflexivity.
Qed.

(** X28. [prompt_invoice_date_range] returns only ranges of two dates that
    are both weekdays, the end on or after the start: the two bounds pass
    the checks of [apply_invoice_and_expiration_dates].  It raises nothing
    but the EOFError of an exhausted input and the OverflowError of
    [date]. *)
Theorem prompt_invoice_date_range_valid (stdin : list string) :
  match answer (prompt_invoice_date_range py_int stdin) with
  | Returns r =>
      is_date (range_from r) /\ is_date (range_to r) /\
      0 <= weekday (range_from r) <= 4 /\ 0 <= weekday (range_to r) <= 4 /\
      range_from r <= range_to r
  | Raises e => e = EOFError \/ e = Inherited OverflowError
  end.
Proof.
  destruct (answer (prompt_invoice_date_range py_int stdin)) as [r|e] eqn:Ha.
  - apply (date_range_returns stdin r Ha).
  - apply (date_range_raises stdin e Ha).
Qed.

(** X29. The prompts and the dating compose, as in [main]: for a range
    that [prompt_invoice_date_range] returned and that ends before
    [date.max], [_weekdays_in_range] returns a pool that holds both bounds,
    so that [apply_invoice_and_expiration_dates] neither rejects the bounds
    nor finds the range without weekdays. *)
Theorem prompted_range_has_weekdays (stdin : list string) (r : DateRange) :
  answer (prompt_invoice_date_range py_int stdin) = Returns r ->
  range_to r < MAXORD ->
  exists pool,
    valid_range (range_from r) (range_to r) pool /\
    In (range_from r) pool /\ In (range_to r) pool.
Proof.
  intros Ha Hmax. destruct (date_range_returns stdin r Ha) as (Hs & He & Hws & Hwe & Hle).
  destruct (weekdays_in_range_ok (range_from r) (range_to r)) as (pool & Hp & _ & Hin);
    [apply Hs | exact Hmax |].
  exists pool. split; [constructor; [lia | lia | exact Hle | exact Hp]|].
  split; apply Hin; lia.
Qed.

End PromptsFacts.

Lemma prompted_range_has_weekdays_witness :
  exists pool,
    valid_range (ymd 2026 1 5) (ymd 2026 1 9) pool /\
    In (ymd 2026 1 5) pool /\ In (ymd 2026 1 9) pool.
Proof.
  apply (prompted_range_has_weekdays decimal
           ["03/01/2026"; " 09/01/2026"; "05/01/2026"; "5/1/2026"; "2026-01-09";
            "9/1/2026"; "next"]%string
           {| range_from := ymd 2026 1 5; range_to := ymd 2026 1 9 |});
    [vm_compute; reflexivity | closed].
Defined.
